(** * cloudworker-router: the matching and dispatch engine of [src/Router.ts]

    A shallow embedding of the [Router] class: the route table and its
    registration shorthands, the [matches] generator, [keysToParams],
    [allowedMethods] and the [handle] dispatcher, followed by the properties
    proved about them.

    Conventions of the embedding.
    - A call that may throw returns a [Completion]: [Normal v] or [Throw e].
    - Handlers and callbacks are asynchronous JavaScript functions with
      arbitrary side effects.  They are embedded as total functions that
      thread a store [World] (everything mutable they can reach, the
      [ctx.state] object included); awaiting them is calling them.
    - The generator [matches] is embedded as the finite trace of its
      [yield]s, ended by its [return] or by the exception it throws.  The
      route table is not changed while a request is handled.
    - Platform classes ([Request], [URL], [Response]) are records with the
      properties the router reads and writes; the [Response] constructor
      keeps the checks and the default header of the Fetch standard. *)

From Stdlib Require Import String Ascii List Bool Arith Lia.
Import ListNotations.
Open Scope string_scope.
Open Scope list_scope.

Set Implicit Arguments.

(* ------------------------------------------------------------------ *)
(** ** Completions and exceptions *)

Module Error.
(** A thrown JavaScript [Error]: its [name] and [message]. *)
Record t : Type := mk { name : string; message : string }.
End Error.

Inductive Completion (A : Type) : Type :=
| Normal (value : A)
| Throw (error : Error.t).

Arguments Normal {A} value.
Arguments Throw {A} error.

(** [TypeError] raised by reading a property of [undefined]. *)
Definition TypeError_undefined (prop : string) : Error.t :=
  Error.mk "TypeError"
    ("Cannot read properties of undefined (reading '" ++ prop ++ "')").

(* ------------------------------------------------------------------ *)
(** ** Plain objects used as string-keyed maps

    Own keys are kept in insertion order, which is the order [Object.keys]
    reports for keys that are not array indices (the router enumerates the
    keys of no other object); assigning to a key that is already present
    keeps its position. *)

Definition JsObject (V : Type) : Type := list (string * V).

Fixpoint obj_set {V : Type} (o : JsObject V) (k : string) (v : V) : JsObject V :=
  match o with
  | [] => [(k, v)]
  | (k', v') :: o' =>
      if String.eqb k' k then (k, v) :: o' else (k', v') :: obj_set o' k v
  end.

Fixpoint obj_get {V : Type} (o : JsObject V) (k : string) : option V :=
  match o with
  | [] => None
  | (k', v') :: o' => if String.eqb k' k then Some v' else obj_get o' k
  end.

Definition obj_keys {V : Type} (o : JsObject V) : list string := map fst o.

(** [o[k] = v] for a string [v] on an object made by an object literal.
    The key [__proto__] is the accessor inherited from [Object.prototype]:
    its setter ignores a value that is neither an object nor [null], so
    nothing is bound.  Any other key becomes, or stays, an own property. *)
Definition obj_assign (o : JsObject string) (k v : string) : JsObject string :=
  if String.eqb k "__proto__" then o else obj_set o k v.

(** [Array.prototype.join]. *)
Definition join (sep : string) (l : list string) : string := String.concat sep l.

(** Byte-lowercase, as header names compare. *)
Definition byte_lowercase (c : ascii) : ascii :=
  let n := nat_of_ascii c in
  if Nat.leb 65 n && Nat.leb n 90 then ascii_of_nat (n + 32) else c.

Fixpoint lowercase (s : string) : string :=
  match s with
  | EmptyString => EmptyString
  | String c s' => String (byte_lowercase c) (lowercase s')
  end.

(* ------------------------------------------------------------------ *)
(** ** Platform records *)

Module URL.
(** The two parts of [new URL(request.url)] the router destructures. *)
Record t : Type := mk { pathname : string; searchParams : string }.
End URL.

Module Request.
(** Modelled from the spec: the inbound request abstraction, exposing
    method, URL (path and query string) and headers.  [url] holds the URL
    already parsed. *)
Record t : Type := mk {
  method : string;
  url : URL.t;
  headers : JsObject string
}.
End Request.

Module ResponseInit.
Record t : Type := mk {
  status : option nat;
  statusText : option string;
  headers : option (JsObject string)
}.
End ResponseInit.

Module Response.
(** The platform class [Response] of the Fetch standard, through what the
    router reads and builds: status, status text, the header list in
    insertion order, and the body, [None] for a null body. *)
Record t : Type := mk {
  status : nat;
  statusText : string;
  headers : JsObject string;
  body : option string
}.

(** The statuses of a response that has no body. *)
Definition null_body_status (s : nat) : bool :=
  Nat.eqb s 101 || Nat.eqb s 204 || Nat.eqb s 205 || Nat.eqb s 304.

(** The header list contains a header of that (lower-case) name; names
    compare without regard to case. *)
Definition has_header (name : string) (h : JsObject string) : bool :=
  existsb (fun entry => String.eqb (lowercase (fst entry)) name) h.

Definition RangeError_status : Error.t :=
  Error.mk "RangeError" "The status provided is outside the range [200, 599].".

Definition TypeError_null_body : Error.t :=
  Error.mk "TypeError" "Response with null body status cannot have body.".

(** [new Response(body, init)], after the constructor steps of the Fetch
    standard: a status outside 200..599 is a RangeError; a body that is not
    null with a null body status is a TypeError; a string body brings the
    header content-type, text/plain;charset=UTF-8, unless the headers have
    one.  The router passes a status text only from a response, where it is
    valid.  The messages of the errors differ between runtimes. *)
Definition new (body : option string) (init : ResponseInit.t) : Completion t :=
  let status := match ResponseInit.status init with Some s => s | None => 200 end in
  let statusText := match ResponseInit.statusText init with Some s => s | None => "" end in
  let headers := match ResponseInit.headers init with Some h => h | None => [] end in
  if negb (Nat.leb 200 status && Nat.leb status 599) then Throw RangeError_status
  else
    match body with
    | None => Normal (mk status statusText headers None)
    | Some text =>
        if null_body_status status then Throw TypeError_null_body
        else
          Normal (mk status statusText
                    (if has_header "content-type" headers then headers
                     else headers ++ [("content-type", "text/plain;charset=UTF-8")])
                    (Some text))
    end.

(** A response passed where an init dictionary is expected: its [status],
    [statusText] and [headers] properties are read. *)
Definition as_init (r : t) : ResponseInit.t :=
  ResponseInit.mk (Some (status r)) (Some (statusText r)) (Some (headers r)).
End Response.

(** The init literal [{ status: s }]. *)
Definition init_status (s : nat) : ResponseInit.t :=
  ResponseInit.mk (Some s) None None.

(* ------------------------------------------------------------------ *)
(** ** The pattern compiler's values (path-to-regexp) *)

(** [RegExpExecArray]: the whole match at index 0, then one entry per
    capture group, [None] for a group that did not take part. *)
Definition RegExpExecArray : Type := list (option string).

Module RegExp.
(** A compiled matcher, seen through [exec]; [None] is JavaScript's
    [null].  The compiler builds regular expressions without the [g] and
    [y] flags, so [exec] keeps no state. *)
Record t : Type := mk { exec : string -> option RegExpExecArray }.
End RegExp.

Module Key.
(** A capture key.  [name] is a string or a number in the source; it is
    only used as a property key, hence kept as its string form. *)
Record t : Type := mk {
  name : string;
  prefix : string;
  suffix : string;
  pattern : string;
  modifier : string
}.
End Key.

Definition Keys : Type := list Key.t.

Module RouteOptions.
(** [TokensToRegexpOptions]; every property is optional. *)
Record t : Type := mk {
  sensitive : option bool;
  strict : option bool;
  end_ : option bool;
  start : option bool;
  delimiter : option string;
  endsWith : option string;
  encode : option (string -> string)
}.

(** The default argument [{}]. *)
Definition empty : t := mk None None None None None None None.
End RouteOptions.

(** Valid HTTP methods for matching, and the wildcard. *)
Inductive Method : Type := GET | POST | PUT | PATCH | DELETE | HEAD | OPTIONS.

Inductive RouteMethod : Type :=
| Exactly (m : Method)
| ALL.

Definition method_name (m : Method) : string :=
  match m with
  | GET => "GET" | POST => "POST" | PUT => "PUT" | PATCH => "PATCH"
  | DELETE => "DELETE" | HEAD => "HEAD" | OPTIONS => "OPTIONS"
  end.

(** The string a route's [method] property holds at run time. *)
Definition route_method_name (m : RouteMethod) : string :=
  match m with
  | Exactly m => method_name m
  | ALL => "ALL"
  end.

(** Modelled from the spec: [Params] (declared in [types/Params]) is a
    mapping from capture-key name to string value. *)
Definition Params : Type := JsObject string.

(** Convert an array of keys and matches to a params object.  The loop runs
    over indices [1 .. matches.length - 1], pairing [matches[i]] with
    [keys[i - 1]]; reading [key.name] of a missing key throws. *)
Fixpoint keysToParams_loop (captures : list (option string)) (keys : Keys)
    (params : Params) : Completion Params :=
  match captures with
  | [] => Normal params
  | val :: captures' =>
      match keys with
      | [] => Throw (TypeError_undefined "name")
      | key :: keys' =>
          let prop := Key.name key in
          keysToParams_loop captures' keys'
            match val with
            | Some v => obj_assign params prop v
            | None => params
            end
      end
  end.

Definition keysToParams (matches : RegExpExecArray) (keys : Keys) : Completion Params :=
  keysToParams_loop (tl matches) keys [].

(* ------------------------------------------------------------------ *)
(** ** Contexts, handlers, routes *)

Module Context.
(** The object [handle] builds for a request, with the properties of the
    literal in [handle].  Its [state] property is a mutable object and
    lives in the store the handlers thread. *)
Record t (Env ExecutionContext : Type) : Type := mk {
  request : Request.t;
  query : string;
  headers : JsObject string;
  params : Params;
  env : Env;
  event : ExecutionContext
}.

Arguments mk {Env ExecutionContext}.
Arguments request {Env ExecutionContext}.
Arguments query {Env ExecutionContext}.
Arguments headers {Env ExecutionContext}.
Arguments params {Env ExecutionContext}.
Arguments env {Env ExecutionContext}.
Arguments event {Env ExecutionContext}.

(** [ctx.params = p]. *)
Definition set_params {Env ExecutionContext : Type}
    (ctx : t Env ExecutionContext) (p : Params) : t Env ExecutionContext :=
  mk (request ctx) (query ctx) (headers ctx) p (env ctx) (event ctx).
End Context.

(** Modelled from the spec: a callback is a function of (response, error)
    returning a response, invocable asynchronously. *)
Abbreviation RouteCallback World :=
  (Response.t -> option Error.t -> World -> Completion Response.t * World)%type.

(** What a handler resolves to: [Response | RouteCallback | undefined]. *)
Inductive HandlerResult (World : Type) : Type :=
| IsResponse (r : Response.t)
| IsCallback (callback : RouteCallback World)
| IsUndefined.

Arguments IsResponse {World} r.
Arguments IsCallback {World} callback.
Arguments IsUndefined {World}.

(** Let the router know that handlers are async functions returning a
    response, a callback or nothing. *)
Abbreviation Handler World Env ExecutionContext :=
  (Context.t Env ExecutionContext -> World ->
   Completion (HandlerResult World) * World)%type.

Module Route.
Record t (H : Type) : Type := mk {
  method : RouteMethod;
  path : string;
  regexp : RegExp.t;
  options : RouteOptions.t;
  keys : Keys;
  handler : H
}.

Arguments mk {H}.
Arguments method {H}.
Arguments path {H}.
Arguments regexp {H}.
Arguments options {H}.
Arguments keys {H}.
Arguments handler {H}.
End Route.

Module RouteMatch.
(** The object returned when a route matches: the route's own properties
    (the spread [...route]) with [params] and, from the regular
    expression, [matches]. *)
Record t (H : Type) : Type := mk {
  route : Route.t H;
  params : Params;
  matches : option RegExpExecArray
}.

Arguments mk {H}.
Arguments route {H}.
Arguments params {H}.
Arguments matches {H}.
End RouteMatch.

(** The run of a generator of [A]: each [yield], then the [return] that ends
    it, or the exception that escapes its body. *)
Inductive Generator (A : Type) : Type :=
| Return
| Yield (value : A) (rest : Generator A)
| Raise (error : Error.t).

Arguments Return {A}.
Arguments Yield {A} value rest.
Arguments Raise {A} error.

(** Running [g], then [k] once [g] has returned. *)
Fixpoint gen_app {A : Type} (g k : Generator A) : Generator A :=
  match g with
  | Return => k
  | Yield v rest => Yield v (gen_app rest k)
  | Raise e => Raise e
  end.

(** The values a generator yields before it ends. *)
Fixpoint yields {A : Type} (g : Generator A) : list A :=
  match g with
  | Return => []
  | Yield v rest => v :: yields rest
  | Raise _ => []
  end.

(** The exception that ends a generator, if any. *)
Fixpoint raised {A : Type} (g : Generator A) : option Error.t :=
  match g with
  | Return => None
  | Yield _ rest => raised rest
  | Raise e => Some e
  end.

(* ------------------------------------------------------------------ *)
(** ** The router *)

Module Router.
Section WithRuntime.

(** The store threaded through handlers and callbacks, the opaque
    environment bindings and the opaque execution-context handle. *)
Variables World Env ExecutionContext : Type.

(** The external pattern compiler [pathToRegexp(path, keys, options)]: it
    throws on a malformed template, otherwise returns the regular
    expression and has filled [keys]. *)
Variable pathToRegexp : string -> RouteOptions.t -> Completion (RegExp.t * Keys).

Local Abbreviation handler := (Handler World Env ExecutionContext).
Local Abbreviation route := (Route.t handler).
Local Abbreviation route_match := (RouteMatch.t handler).

(** The router object: the list of all registered routes. *)
Record t : Type := mk { routes : list route }.

(** [new Router()]. *)
Definition new : t := mk [].

(** *** Registration *)

(** A chainable method: run on the receiver, it throws or returns a router
    (the receiver itself), and leaves the receiver in a new state. *)
Definition fluent : Type := t -> Completion t * t.

(** [receiver.m1(...).m2(...)]: [m2] is called on what [m1] returned. *)
Definition chain (m1 m2 : fluent) : fluent :=
  fun this =>
    match m1 this with
    | (Normal returned, _) => m2 returned
    | (Throw e, this') => (Throw e, this')
    end.

Definition push (method : RouteMethod) (path : string) (h : handler)
    (options : RouteOptions.t) : fluent :=
  fun this =>
    let path := if String.eqb path "*" then "(.*)" else path in
    match pathToRegexp path options with
    | Throw e => (Throw e, this)
    | Normal (regexp, keys) =>
        let this' :=
          mk (routes this ++ [Route.mk method path regexp options keys h]) in
        (Normal this', this')
    end.

(** Add a route that matches any method. *)
Definition all (path : string) (h : handler) (options : RouteOptions.t) : fluent :=
  push ALL path h options.

(** Add a route that matches the GET method. *)
Definition get (path : string) (h : handler) (options : RouteOptions.t) : fluent :=
  chain (push (Exactly GET) path h options) (push (Exactly HEAD) path h options).

(** Add a route that matches the POST method. *)
Definition post (path : string) (h : handler) (options : RouteOptions.t) : fluent :=
  push (Exactly POST) path h options.

(** Add a route that matches the PUT method. *)
Definition put (path : string) (h : handler) (options : RouteOptions.t) : fluent :=
  push (Exactly PUT) path h options.

(** Add a route that matches the PATCH method. *)
Definition patch (path : string) (h : handler) (options : RouteOptions.t) : fluent :=
  push (Exactly PATCH) path h options.

(** Add a route that matches the DELETE method. *)
Definition delete (path : string) (h : handler) (options : RouteOptions.t) : fluent :=
  push (Exactly DELETE) path h options.

(** Add a route that matches the HEAD method. *)
Definition head (path : string) (h : handler) (options : RouteOptions.t) : fluent :=
  push (Exactly HEAD) path h options.

(** Add a route that matches the OPTIONS method. *)
Definition options (path : string) (h : handler) (options : RouteOptions.t) : fluent :=
  push (Exactly OPTIONS) path h options.

(** Add a middleware handler. *)
Definition use (h : handler) (options : RouteOptions.t) : fluent :=
  push ALL "*" h options.

(** *** allowedMethods *)

(** The body of the [forEach] callback: the [allow] object after visiting
    one route. *)
Definition allow_route (pathname : string) (allow : JsObject bool) (r : route)
    : JsObject bool :=
  match Route.method r with
  | ALL => allow
  | Exactly _ =>
      match RegExp.exec (Route.regexp r) pathname with
      | None => allow
      | Some matches =>
          if Nat.eqb (length matches) 0 then allow
          else obj_set allow (route_method_name (Route.method r)) true
      end
  end.

(** The handler [allowedMethods()] returns.  The closure reads
    [this.routes] when it is called: [this] is the router as it stands at
    that time. *)
Definition allowedMethods (this : t) : handler :=
  fun ctx w =>
    let url := Request.url (Context.request ctx) in
    let allow :=
      fold_left (allow_route (URL.pathname url)) (routes this) [("OPTIONS", true)] in
    match Response.new None
            (ResponseInit.mk (Some 204) None
               (Some [("allow", join ", " (obj_keys allow))])) with
    | Normal response => (Normal (IsResponse response), w)
    | Throw e => (Throw e, w)
    end.

(** *** matches *)

(** The [for ... of this.routes] loop of the generator.  The [method]
    annotation is erased at run time: [handle] passes [request.method]
    unchecked, so the argument is any string. *)
Fixpoint matches_loop (rs : list route) (method path : string)
    : Generator route_match :=
  match rs with
  | [] => Return
  | r :: rs' =>
      let continue := matches_loop rs' method path in
      if negb (String.eqb (route_method_name (Route.method r)) method)
         && negb (String.eqb (route_method_name (Route.method r)) "ALL")
      then continue
      else
        let full :=
          match RegExp.exec (Route.regexp r) path with
          | None => continue
          | Some matches =>
              if Nat.eqb (length matches) 0 then continue
              else
                match keysToParams matches (Route.keys r) with
                | Throw e => Raise e
                | Normal params =>
                    Yield (RouteMatch.mk r params (Some matches)) continue
                end
          end in
        let root :=
          if String.eqb (Route.path r) "/"
             && match RouteOptions.end_ (Route.options r) with
                | Some false => true
                | _ => false
                end
          then Yield (RouteMatch.mk r [] None) full
          else full in
        if String.eqb (Route.path r) "(.*)"
        then Yield (RouteMatch.mk r [("0", Route.path r)] None) root
        else root
  end.

Definition matches (this : t) (method path : string) : Generator route_match :=
  matches_loop (routes this) method path.

(** *** handle *)

Local Abbreviation context := (Context.t Env ExecutionContext).

(** The [for await (const callback of callbacks)] loop: the response and
    the error after the callbacks have run. *)
Fixpoint run_callbacks (callbacks : list (RouteCallback World))
    (result : Response.t) (error : option Error.t) (w : World)
    : Response.t * option Error.t * World :=
  match callbacks with
  | [] => (result, error, w)
  | callback :: callbacks' =>
      match callback result error w with
      | (Normal result', w') => run_callbacks callbacks' result' error w'
      | (Throw err, w') => run_callbacks callbacks' result (Some err) w'
      end
  end.

(** The branch taken when the handler's result is a [Response]: run the
    callbacks, then remove the body for head requests.  The constructor is
    called outside any [try] block: what it throws leaves [handle]. *)
Definition finalize (request : Request.t) (callbacks : list (RouteCallback World))
    (result : Response.t) (error : option Error.t) (w : World)
    : Completion Response.t * World :=
  let '(result, _, w) := run_callbacks callbacks result error w in
  if String.eqb (Request.method request) "HEAD"
  then (Response.new (Some "") (Response.as_init result), w)
  else (Normal result, w).

(** The response built when the loop over the matches is exhausted. *)
Definition not_found : Completion Response.t :=
  Response.new (Some "Not Found") (init_status 404).

(** The default error response, built in the [catch] block. *)
Definition server_error : Completion Response.t :=
  Response.new (Some "Server Error") (init_status 500).

(** The [for await (const match of matches)] loop.  [ctx] is one object,
    whose [params] each iteration overwrites.  The generator yields no
    [null], so the test on [match] always passes.  An exception escaping
    the generator escapes the loop. *)
Fixpoint handle_loop (request : Request.t) (matches : Generator route_match)
    (callbacks : list (RouteCallback World)) (ctx : context) (w : World)
    : Completion Response.t * World :=
  match matches with
  | Return => (not_found, w)
  | Raise e => (Throw e, w)
  | Yield m rest =>
      let ctx := Context.set_params ctx (RouteMatch.params m) in
      match Route.handler (RouteMatch.route m) ctx w with
      | (Normal (IsResponse result), w) => finalize request callbacks result None w
      | (Normal (IsCallback callback), w) =>
          handle_loop request rest (callbacks ++ [callback]) ctx w
      | (Normal IsUndefined, w) => handle_loop request rest callbacks ctx w
      | (Throw err, w) =>
          match server_error with
          | Normal result => finalize request callbacks result (Some err) w
          | Throw e => (Throw e, w)
          end
      end
  end.

Definition handle (this : t) (request : Request.t) (env : Env)
    (event : ExecutionContext) (w : World) : Completion Response.t * World :=
  let url := Request.url request in
  let matches := matches this (Request.method request) (URL.pathname url) in
  let ctx :=
    Context.mk request (URL.searchParams url) (Request.headers request) [] env event in
  handle_loop request matches [] ctx w.

End WithRuntime.

Arguments mk {World Env ExecutionContext} routes.
Arguments routes {World Env ExecutionContext} t.
Arguments new {World Env ExecutionContext}.
Arguments chain {World Env ExecutionContext} m1 m2 this.
Arguments push {World Env ExecutionContext} pathToRegexp method path h options this.
Arguments all {World Env ExecutionContext} pathToRegexp path h options this.
Arguments get {World Env ExecutionContext} pathToRegexp path h options this.
Arguments post {World Env ExecutionContext} pathToRegexp path h options this.
Arguments put {World Env ExecutionContext} pathToRegexp path h options this.
Arguments patch {World Env ExecutionContext} pathToRegexp path h options this.
Arguments delete {World Env ExecutionContext} pathToRegexp path h options this.
Arguments head {World Env ExecutionContext} pathToRegexp path h options this.
Arguments options {World Env ExecutionContext} pathToRegexp path h options this.
Arguments use {World Env ExecutionContext} pathToRegexp h options this.
Arguments allow_route {World Env ExecutionContext} pathname allow r.
Arguments allowedMethods {World Env ExecutionContext} this ctx w.
Arguments matches_loop {World Env ExecutionContext} rs method path.
Arguments matches {World Env ExecutionContext} this method path.
Arguments run_callbacks {World} callbacks result error w.
Arguments finalize {World} request callbacks result error w.
Arguments handle_loop {World Env ExecutionContext} request matches callbacks ctx w.
Arguments handle {World Env ExecutionContext} this request env event w.

End Router.

(* ------------------------------------------------------------------ *)
(** ** Vocabulary of the statements *)

Section Vocabulary.

Variables World Env ExecutionContext : Type.

Local Abbreviation handler := (Handler World Env ExecutionContext).
Local Abbreviation route := (Route.t handler).
Local Abbreviation route_match := (RouteMatch.t handler).
Local Abbreviation context := (Context.t Env ExecutionContext).

(** The route's method is the wildcard or the request's. *)
Definition accepts_method (r : route) (method : string) : bool :=
  String.eqb (route_method_name (Route.method r)) method
  || String.eqb (route_method_name (Route.method r)) "ALL".

(** The route's regular expression accepts the path. *)
Definition regexp_accepts (r : route) (path : string) : bool :=
  match RegExp.exec (Route.regexp r) path with
  | Some (_ :: _) => true
  | _ => false
  end.

(** One of the three tests of [matches] lets the path through. *)
Definition accepts_path (r : route) (path : string) : bool :=
  String.eqb (Route.path r) "(.*)"
  || (String.eqb (Route.path r) "/"
      && match RouteOptions.end_ (Route.options r) with
         | Some false => true
         | _ => false
         end)
  || regexp_accepts r path.

(** The route has a key for every capture group its regular expression
  reports, as the pattern compiler builds it. *)
Definition keys_cover (r : route) : Prop :=
forall (path : string) (matches : RegExpExecArray),
  RegExp.exec (Route.regexp r) path = Some matches ->
  length matches <= S (length (Route.keys r)).

(** The route matches the request. *)
Definition route_applies (method path : string) (r : route) : bool :=
  accepts_method r method && accepts_path r path.

(** A handler outcome that does not end the request: a callback, or
    [undefined]. *)
Definition defers (outcome : Completion (HandlerResult World) * World) : Prop :=
  match outcome with
  | (Normal (IsCallback _), _) => True
  | (Normal IsUndefined, _) => True
  | _ => False
  end.

(** The state of the dispatcher's loop: the matches still to come, the
    callbacks accumulated, the context object and the store. *)
Definition loop_state : Type :=
  (Generator route_match * list (RouteCallback World) * context * World)%type.

(** [pending s s']: from [s] the loop reaches [s'] through handlers that
    return a callback (recorded after the ones already there) or
    [undefined]. *)
Inductive pending : loop_state -> loop_state -> Prop :=
| pending_here : forall s, pending s s
| pending_callback : forall m rest callbacks ctx w callback w' s',
    Route.handler (RouteMatch.route m)
      (Context.set_params ctx (RouteMatch.params m)) w
    = (Normal (IsCallback callback), w') ->
    pending (rest, callbacks ++ [callback],
             Context.set_params ctx (RouteMatch.params m), w') s' ->
    pending (Yield m rest, callbacks, ctx, w) s'
| pending_undefined : forall m rest callbacks ctx w w' s',
    Route.handler (RouteMatch.route m)
      (Context.set_params ctx (RouteMatch.params m)) w
    = (Normal IsUndefined, w') ->
    pending (rest, callbacks,
             Context.set_params ctx (RouteMatch.params m), w') s' ->
    pending (Yield m rest, callbacks, ctx, w) s'.

(** The context [handle] starts from. *)
Definition initial_context (request : Request.t) (env : Env)
    (event : ExecutionContext) : context :=
  Context.mk request (URL.searchParams (Request.url request))
    (Request.headers request) [] env event.

(** The default header a string body brings. *)
Definition text_plain : string * string :=
  ("content-type", "text/plain;charset=UTF-8").

(** The path template [push] compiles for [path]. *)
Definition template (path : string) : string :=
  if String.eqb path "*" then "(.*)" else path.

(** The registration calls of the API. *)
Inductive registration : Type :=
| call_push (method : RouteMethod) (path : string)
| call_all (path : string)
| call_get (path : string)
| call_post (path : string)
| call_put (path : string)
| call_patch (path : string)
| call_delete (path : string)
| call_head (path : string)
| call_options (path : string)
| call_use.

Definition perform
    (pathToRegexp : string -> RouteOptions.t -> Completion (RegExp.t * Keys))
    (call : registration) (h : handler) (options : RouteOptions.t)
    : Router.t World Env ExecutionContext ->
      Completion (Router.t World Env ExecutionContext)
      * Router.t World Env ExecutionContext :=
  match call with
  | call_push method path => Router.push pathToRegexp method path h options
  | call_all path => Router.all pathToRegexp path h options
  | call_get path => Router.get pathToRegexp path h options
  | call_post path => Router.post pathToRegexp path h options
  | call_put path => Router.put pathToRegexp path h options
  | call_patch path => Router.patch pathToRegexp path h options
  | call_delete path => Router.delete pathToRegexp path h options
  | call_head path => Router.head pathToRegexp path h options
  | call_options path => Router.options pathToRegexp path h options
  | call_use => Router.use pathToRegexp h options
  end.

(** The template a registration call hands to the compiler. *)
Definition registered_template (call : registration) : string :=
  match call with
  | call_push _ path | call_all path | call_get path | call_post path
  | call_put path | call_patch path | call_delete path | call_head path
  | call_options path => template path
  | call_use => "(.*)"
  end.

(** The methods a registration call registers, in order. *)
Definition registered_methods (call : registration) : list RouteMethod :=
  match call with
  | call_push method _ => [method]
  | call_all _ => [ALL]
  | call_get _ => [Exactly GET; Exactly HEAD]
  | call_post _ => [Exactly POST]
  | call_put _ => [Exactly PUT]
  | call_patch _ => [Exactly PATCH]
  | call_delete _ => [Exactly DELETE]
  | call_head _ => [Exactly HEAD]
  | call_options _ => [Exactly OPTIONS]
  | call_use => [ALL]
  end.

(** Keep the first occurrence of each key, in order. *)
Definition add_key (seen : list string) (k : string) : list string :=
  if existsb (String.eqb k) seen then seen else seen ++ [k].

(** The method names [allowedMethods] visits for a path: those of the
    routes with a concrete method whose regular expression accepts it. *)
Definition scanned_methods (rs : list route) (pathname : string) : list string :=
  map (fun r => route_method_name (Route.method r))
    (filter (fun r =>
               match Route.method r with
               | ALL => false
               | Exactly _ => regexp_accepts r pathname
               end) rs).

End Vocabulary.

Arguments accepts_method {World Env ExecutionContext} r method.
Arguments regexp_accepts {World Env ExecutionContext} r path.
Arguments accepts_path {World Env ExecutionContext} r path.
Arguments keys_cover {World Env ExecutionContext} r.
Arguments route_applies {World Env ExecutionContext} method path r.
Arguments defers {World} outcome.
Arguments pending {World Env ExecutionContext} _ _.
Arguments initial_context {Env ExecutionContext} request env event.
Arguments perform {World Env ExecutionContext} pathToRegexp call h options _.
Arguments scanned_methods {World Env ExecutionContext} rs pathname.

(* ------------------------------------------------------------------ *)
(** ** Concrete instances used by the examples *)

Module Fixture.

Local Open Scope nat_scope.

(** The store of the examples: a log of what ran, most recent last. *)
Definition World : Type := list string.

Definition handler : Type := Handler World unit unit.
Definition router : Type := Router.t World unit unit.

Definition is_upper (c : ascii) : bool :=
  (65 <=? nat_of_ascii c) && (nat_of_ascii c <=? 90).

Definition lower (c : ascii) : ascii :=
  if is_upper c then ascii_of_nat (nat_of_ascii c + 32) else c.

Fixpoint lower_string (s : string) : string :=
  match s with
  | EmptyString => EmptyString
  | String c s' => String (lower c) (lower_string s')
  end.

Fixpoint string_forall (p : ascii -> bool) (s : string) : bool :=
  match s with
  | EmptyString => true
  | String c s' => p c && string_forall p s'
  end.

(** Characters the compiler's lexer treats as plain text and that need no
    thought about escaping: letters, digits, [/], [-], [_] and [.]. *)
Definition plain_char (c : ascii) : bool :=
  let n := nat_of_ascii c in
  ((65 <=? n) && (n <=? 90)) || ((97 <=? n) && (n <=? 122))
  || ((48 <=? n) && (n <=? 57))
  || (n =? 47) || (n =? 45) || (n =? 95) || (n =? 46).

(** A line terminator, which [.] does not match: LF, CR, or U+2028 and
    U+2029 in their UTF-8 form. *)
Fixpoint has_line_terminator (s : string) : bool :=
  match s with
  | EmptyString => false
  | String c s' =>
      let n := nat_of_ascii c in
      if (n =? 10) || (n =? 13) then true
      else
        match s' with
        | String c2 (String c3 _) =>
            if (n =? 226) && (nat_of_ascii c2 =? 128)
               && ((nat_of_ascii c3 =? 168) || (nat_of_ascii c3 =? 169))
            then true
            else has_line_terminator s'
        | _ => has_line_terminator s'
        end
  end.

(** The regular expression compiled from the catch-all template: one greedy
    group of any characters but line terminators, anchored at both ends.
    The group takes the whole path. *)
Definition catch_all : RegExp.t :=
  RegExp.mk (fun path =>
    if has_line_terminator path then None else Some [Some path; Some path]).

(** The regular expression compiled from a plain template [tpl] with no
    option but [sensitive]: [tpl], then at most one of [/], [#], [?]. *)
Definition literal (sensitive : bool) (tpl : string) : RegExp.t :=
  RegExp.mk (fun path =>
    let fold s := if sensitive then s else lower_string s in
    if String.eqb (fold path) (fold tpl)
       || String.eqb (fold path) (fold tpl ++ "/")
       || String.eqb (fold path) (fold tpl ++ "#")
       || String.eqb (fold path) (fold tpl ++ "?")
    then Some [Some path] else None).

Definition only_sensitive (options : RouteOptions.t) : bool :=
  match RouteOptions.strict options, RouteOptions.end_ options,
        RouteOptions.start options, RouteOptions.delimiter options,
        RouteOptions.endsWith options, RouteOptions.encode options with
  | None, None, None, None, None, None => true
  | _, _, _, _, _, _ => false
  end.

(** An instance of the pattern compiler on a fragment of its inputs: the
    catch-all template, and plain templates under options that set at most
    [sensitive].  Any other input is answered with an exception, as the
    compiler does for a malformed template (an unbalanced parenthesis, for
    one); it stands for nothing else outside the fragment. *)
Definition pathToRegexp (path : string) (options : RouteOptions.t)
    : Completion (RegExp.t * Keys) :=
  if String.eqb path "(.*)" then
    Normal (catch_all, [Key.mk "0" "" "" ".*" ""])
  else if string_forall plain_char path && only_sensitive options then
    Normal (literal
              match RouteOptions.sensitive options with
              | Some true => true
              | _ => false
              end path, [])
  else Throw (Error.mk "TypeError" ("Unexpected pattern in " ++ path)).

Definition request (method pathname : string) : Request.t :=
  Request.mk method (URL.mk pathname "") [].

(** A handler that logs [label] and answers with [r]. *)
Definition respond (label : string) (r : Response.t) : handler :=
  fun _ w => (Normal (IsResponse r), w ++ [label]).

(** A handler that logs [label] and throws. *)
Definition failing (label : string) : handler :=
  fun _ w => (Throw (Error.mk "Error" label), w ++ [label]).

(** A handler that answers with the value of [ctx.params['0']] as body,
    in a response with status 200 and no header. *)
Definition echo_param : handler :=
  fun ctx w =>
    (Normal (IsResponse (Response.mk 200 "" [] (obj_get (Context.params ctx) "0"))), w).

(** A callback that logs [label] and adds the header [label: seen]. *)
Definition tagging (label : string) : RouteCallback World :=
  fun r _ w =>
    (Normal (Response.mk (Response.status r) (Response.statusText r)
               (obj_set (Response.headers r) label "seen") (Response.body r)),
     w ++ [label]).

(** A callback that logs [label] and throws. *)
Definition failing_callback (label : string) : RouteCallback World :=
  fun _ _ w => (Throw (Error.mk "Error" label), w ++ [label]).

(** A middleware: logs [label] and returns [callback]. *)
Definition middleware (label : string) (callback : RouteCallback World) : handler :=
  fun _ w => (Normal (IsCallback callback), w ++ [label]).

(** The router state after running [calls] on a new router. *)
Definition built (calls : Router.t World unit unit -> Completion router * router)
    : router :=
  snd (calls Router.new).

(** The default options. *)
Definition E : RouteOptions.t := RouteOptions.empty.

Definition ok (body : string) : Response.t :=
  Response.mk 200 "OK" [("content-type", "text/plain")] (Some body).

(** The route [use] registers with this compiler. *)
Definition wildcard (h : handler) : Route.t handler :=
  Route.mk ALL "(.*)" catch_all E [Key.mk "0" "" "" ".*" ""] h.

End Fixture.

(* ------------------------------------------------------------------ *)
(** ** Chains of registrations and further instances *)

Section Chains.

Variables World Env ExecutionContext : Type.

Variable pathToRegexp : string -> RouteOptions.t -> Completion (RegExp.t * Keys).

Local Abbreviation handler := (Handler World Env ExecutionContext).
Local Abbreviation router := (Router.t World Env ExecutionContext).

(** The receiver itself, before any call of a chain. *)
Definition receiver : router -> Completion router * router :=
  fun this => (Normal this, this).

(** [router.c1(...).c2(...) ... .cn(...)]: the calls chained from left to
    right on the receiver. *)
Definition perform_all (calls : list (registration * handler * RouteOptions.t))
    : router -> Completion router * router :=
  fold_left
    (fun chained '(call, h, options) =>
       Router.chain chained (perform pathToRegexp call h options))
    calls receiver.

(** The number of routes the calls register when they all succeed. *)
Definition registered_count (calls : list (registration * handler * RouteOptions.t))
    : nat :=
  list_sum (map (fun '(call, _, _) => length (registered_methods call)) calls).

End Chains.

Arguments receiver {World Env ExecutionContext} _.
Arguments perform_all {World Env ExecutionContext} pathToRegexp calls _.
Arguments registered_count {World Env ExecutionContext} calls.

Module Scenario.
Import Fixture.

(** The regular expression the compiler builds from ["/"] with
    [end: false]: the leading slash, then at most one of [/], [#], [?] if
    the path ends there.  It accepts every path that starts with a slash. *)
Definition root_prefix : RegExp.t :=
  RegExp.mk (fun path =>
    match path with
    | String "/"%char rest =>
        if String.eqb rest "/" || String.eqb rest "#" || String.eqb rest "?"
        then Some [Some path]
        else Some [Some "/"]
    | _ => None
    end).

(** The route [all('/', h, { end: false })] registers. *)
Definition root_route (h : handler) : Route.t handler :=
  Route.mk ALL "/" root_prefix
    (RouteOptions.mk None None (Some false) None None None None) [] h.

(** A route pushed into the public [routes] array by hand: its regular
    expression has one capture group, its key list is empty. *)
Definition keyless_route (h : handler) : Route.t handler :=
  Route.mk (Exactly GET) "/users/(\d+)"
    (RegExp.mk (fun path =>
       if String.eqb path "/users/42" then Some [Some path; Some "42"] else None))
    E [] h.

(** The response of [new Response(null, { status: 204 })]. *)
Definition no_content : Response.t := Response.mk 204 "" [] None.

(** The response of [Response.error()]: status 0, no body. *)
Definition network_error : Response.t := Response.mk 0 "" [] None.

(** A response with a body and no content-type header. *)
Definition untyped : Response.t :=
  Response.mk 200 "OK" [("x-id", "7")] (Some "hello").

Definition key (name : string) : Key.t :=
  Key.mk name "/" "" "[^\/#\?]+?" "".

End Scenario.

(* ------------------------------------------------------------------ *)
(** ** Properties *)

Section Properties.

Context {World Env ExecutionContext : Type}.

Local Abbreviation handler := (Handler World Env ExecutionContext).
Local Abbreviation route := (Route.t handler).
Local Abbreviation route_match := (RouteMatch.t handler).
Local Abbreviation router := (Router.t World Env ExecutionContext).
Local Abbreviation context := (Context.t Env ExecutionContext).

(** *** Generators *)

Lemma gen_app_Return_r : forall (A : Type) (g : Generator A), gen_app g Return = g.
Proof.
  induction g as [| v rest IH | e]; simpl; [reflexivity | now rewrite IH | reflexivity].
Qed.

Lemma gen_app_assoc : forall (A : Type) (g h k : Generator A),
  gen_app (gen_app g h) k = gen_app g (gen_app h k).
Proof.
  induction g as [| v rest IH | e]; intros h k; simpl;
    [reflexivity | now rewrite IH | reflexivity].
Qed.

(** *** The loop of [matches], route by route *)

(** What the body of the loop contributes for one route. *)
Lemma matches_loop_cons : forall (r : route) (rs : list route) (method path : string),
  Router.matches_loop (r :: rs) method path
  = gen_app (Router.matches_loop [r] method path) (Router.matches_loop rs method path).
Proof.
  intros r rs method path. cbn [Router.matches_loop].
  destruct (negb (String.eqb (route_method_name (Route.method r)) method)
            && negb (String.eqb (route_method_name (Route.method r)) "ALL"));
    [reflexivity |].
  destruct (String.eqb (Route.path r) "(.*)");
    destruct (String.eqb (Route.path r) "/"
              && match RouteOptions.end_ (Route.options r) with
                 | Some false => true
                 | _ => false
                 end);
    destruct (RegExp.exec (Route.regexp r) path) as [ms |];
    cbn [gen_app]; try reflexivity;
    destruct (Nat.eqb (length ms) 0); cbn [gen_app]; try reflexivity;
    destruct (keysToParams ms (Route.keys r)); reflexivity.
Qed.

Lemma matches_loop_app : forall (l1 l2 : list route) (method path : string),
  Router.matches_loop (l1 ++ l2) method path
  = gen_app (Router.matches_loop l1 method path) (Router.matches_loop l2 method path).
Proof.
  induction l1 as [| r l1 IH]; intros l2 method path.
  - reflexivity.
  - rewrite <- app_comm_cons, matches_loop_cons, IH.
    rewrite (matches_loop_cons r l1). now rewrite gen_app_assoc.
Qed.

(** A route that does not apply to the request contributes nothing. *)
Lemma matches_loop_skip : forall (r : route) (rs : list route) (method path : string),
  route_applies method path r = false ->
  Router.matches_loop (r :: rs) method path = Router.matches_loop rs method path.
Proof.
  intros r rs method path H. cbn [Router.matches_loop].
  unfold route_applies, accepts_method, accepts_path, regexp_accepts in H.
  destruct (String.eqb (route_method_name (Route.method r)) method);
    destruct (String.eqb (route_method_name (Route.method r)) "ALL");
    cbn [negb andb orb] in *; try reflexivity;
    (destruct (String.eqb (Route.path r) "(.*)"); cbn [orb] in H; [discriminate |];
     destruct (String.eqb (Route.path r) "/"
               && match RouteOptions.end_ (Route.options r) with
                  | Some false => true
                  | _ => false
                  end); cbn [orb] in H; [discriminate |];
     destruct (RegExp.exec (Route.regexp r) path) as [[| m ms] |];
     [reflexivity | discriminate | reflexivity]).
Qed.

Lemma matches_loop_none : forall (rs : list route) (method path : string),
  forallb (fun r => negb (route_applies method path r)) rs = true ->
  Router.matches_loop rs method path = Return.
Proof.
  induction rs as [| r rs IH]; intros method path H.
  - reflexivity.
  - cbn [forallb] in H. apply andb_true_iff in H. destruct H as [Hr Hrs].
    rewrite matches_loop_skip by now apply negb_true_iff.
    now apply IH.
Qed.

(** With a key for every capture, [keysToParams] does not throw. *)
Lemma keysToParams_loop_total :
  forall (captures : list (option string)) (keys : Keys) (params : Params),
    length captures <= length keys ->
    exists params', keysToParams_loop captures keys params = Normal params'.
Proof.
  induction captures as [| val captures IH]; intros keys params Hlen.
  - now exists params.
  - destruct keys as [| key keys]; cbn [length] in Hlen; [lia |].
    cbn [keysToParams_loop]. apply IH. lia.
Qed.

Lemma matches_loop_never_raises :
  forall (rs : list route) (method path : string),
    Forall keys_cover rs ->
    raised (Router.matches_loop rs method path) = None.
Proof.
  induction rs as [| r rs IH]; intros method path Hcover.
  - reflexivity.
  - inversion Hcover as [| r' rs' Hr Hrs]; subst.
    specialize (IH method path Hrs).
    cbn [Router.matches_loop].
    destruct (negb (String.eqb (route_method_name (Route.method r)) method)
              && negb (String.eqb (route_method_name (Route.method r)) "ALL"));
      [exact IH |].
    assert (Hfull :
      raised
        match RegExp.exec (Route.regexp r) path with
        | None => Router.matches_loop rs method path
        | Some matches =>
            if Nat.eqb (length matches) 0 then Router.matches_loop rs method path
            else
              match keysToParams matches (Route.keys r) with
              | Throw e => Raise e
              | Normal params =>
                  Yield (RouteMatch.mk r params (Some matches))
                    (Router.matches_loop rs method path)
              end
        end = None).
    { destruct (RegExp.exec (Route.regexp r) path) as [ms |] eqn:Hexec; [| exact IH].
      destruct (Nat.eqb (length ms) 0); [exact IH |].
      pose proof (Hr path ms Hexec) as Hlen.
      destruct (@keysToParams_loop_total (tl ms) (Route.keys r) []) as [ps Hps].
      { destruct ms; cbn [tl length] in *; lia. }
      unfold keysToParams. rewrite Hps. exact IH. }
    destruct (String.eqb (Route.path r) "(.*)");
      destruct (String.eqb (Route.path r) "/"
                && match RouteOptions.end_ (Route.options r) with
                   | Some false => true
                   | _ => false
                   end);
      cbn [raised]; exact Hfull.
Qed.

(** *** The yields of [matches] *)

Lemma raised_gen_app : forall (A : Type) (g k : Generator A),
  raised (gen_app g k)
  = match raised g with
    | Some e => Some e
    | None => raised k
    end.
Proof.
  induction g as [| v rest IH | e]; intros k; cbn [gen_app raised];
    [reflexivity | apply IH | reflexivity].
Qed.

Lemma yields_gen_app_app : forall (A : Type) (g k : Generator A),
  raised g = None -> yields (gen_app g k) = yields g ++ yields k.
Proof.
  induction g as [| v rest IH | e]; intros k H; cbn [gen_app yields raised app] in *.
  - reflexivity.
  - now rewrite IH.
  - discriminate.
Qed.

(** Every match yielded for a table carries a route of the table. *)
Lemma matches_loop_yields_from_table :
  forall (rs : list route) (method path : string),
    Forall (fun m => In (RouteMatch.route m) rs)
      (yields (Router.matches_loop rs method path)).
Proof.
  induction rs as [| r rs IH]; intros method path.
  - constructor.
  - specialize (IH method path).
    assert (Hlater : Forall (fun m : route_match => In (RouteMatch.route m) (r :: rs))
                       (yields (Router.matches_loop rs method path))).
    { eapply Forall_impl; [| exact IH]. intros m Hm. now right. }
    cbn [Router.matches_loop].
    destruct (negb (String.eqb (route_method_name (Route.method r)) method)
              && negb (String.eqb (route_method_name (Route.method r)) "ALL"));
      [exact Hlater |].
    assert (Hfull :
      Forall (fun m : route_match => In (RouteMatch.route m) (r :: rs))
        (yields
           match RegExp.exec (Route.regexp r) path with
           | None => Router.matches_loop rs method path
           | Some matches =>
               if Nat.eqb (length matches) 0 then Router.matches_loop rs method path
               else
                 match keysToParams matches (Route.keys r) with
                 | Throw e => Raise e
                 | Normal params =>
                     Yield (RouteMatch.mk r params (Some matches))
                       (Router.matches_loop rs method path)
                 end
           end)).
    { destruct (RegExp.exec (Route.regexp r) path) as [ms |]; [| exact Hlater].
      destruct (Nat.eqb (length ms) 0); [exact Hlater |].
      destruct (keysToParams ms (Route.keys r)); cbn [yields].
      - constructor; [now left | exact Hlater].
      - constructor. }
    destruct (String.eqb (Route.path r) "(.*)");
      destruct (String.eqb (Route.path r) "/"
                && match RouteOptions.end_ (Route.options r) with
                   | Some false => true
                   | _ => false
                   end);
      cbn [yields];
      repeat (constructor; [now left |]); exact Hfull.
Qed.

(** A route that applies and whose evaluation raises nothing yields. *)
Lemma matches_loop_single_yields :
  forall (r : route) (method path : string),
    route_applies method path r = true ->
    raised (Router.matches_loop [r] method path) = None ->
    exists m ms, yields (Router.matches_loop [r] method path) = m :: ms.
Proof.
  intros r method path Happlies Hraised.
  cbn [Router.matches_loop] in *.
  unfold route_applies, accepts_method, accepts_path, regexp_accepts in Happlies.
  apply andb_true_iff in Happlies. destruct Happlies as [Hm Hp].
  apply orb_true_iff in Hm.
  replace (negb (String.eqb (route_method_name (Route.method r)) method)
           && negb (String.eqb (route_method_name (Route.method r)) "ALL"))
    with false in *
    by (destruct Hm as [-> | ->]; cbn [negb andb];
        [reflexivity | now rewrite andb_false_r]).
  destruct (String.eqb (Route.path r) "(.*)");
    [cbn [yields]; eexists; eexists; reflexivity |].
  destruct (String.eqb (Route.path r) "/"
            && match RouteOptions.end_ (Route.options r) with
               | Some false => true
               | _ => false
               end);
    [cbn [yields]; eexists; eexists; reflexivity |].
  cbn [orb] in Hp.
  destruct (RegExp.exec (Route.regexp r) path) as [[| whole captures] |];
    try discriminate.
  cbn [length Nat.eqb] in *.
  destruct (keysToParams (whole :: captures) (Route.keys r));
    cbn [raised yields] in *; [| discriminate].
  eexists; eexists; reflexivity.
Qed.

(** C1. The generator yields the matches in registration order.  For two
    routes of a table that both match the request, the one registered first
    standing before the other, and when no exception ends the pass before
    the second has been evaluated: each of the two routes is yielded at
    least once, and the sequence of yields is, in this order, the matches
    of the routes registered before the first, the matches of the first,
    the matches of the routes between the two, the matches of the second,
    and the matches of the routes after it.  Every match of the first thus
    comes before every match of the second; nothing reorders them. *)
Theorem C1_matches_in_registration_order :
  forall (before between after : list route) (ri rj : route) (method path : string),
    route_applies method path ri = true ->
    route_applies method path rj = true ->
    raised (Router.matches (Router.mk (before ++ ri :: between ++ [rj])) method path)
    = None ->
    exists (mi mj : route_match) (yi yj yb yt ya : list route_match),
      yields (Router.matches (Router.mk (before ++ ri :: between ++ rj :: after))
                method path)
      = yb ++ (mi :: yi) ++ yt ++ (mj :: yj) ++ ya
      /\ Forall (fun m => In (RouteMatch.route m) before) yb
      /\ Forall (fun m => RouteMatch.route m = ri) (mi :: yi)
      /\ Forall (fun m => In (RouteMatch.route m) between) yt
      /\ Forall (fun m => RouteMatch.route m = rj) (mj :: yj)
      /\ Forall (fun m => In (RouteMatch.route m) after) ya.
Proof.
  intros before between after ri rj method path Hi Hj Hraised.
  unfold Router.matches in *. cbn [Router.routes] in *.
  rewrite matches_loop_app, (matches_loop_cons ri), matches_loop_app in Hraised.
  rewrite !raised_gen_app in Hraised.
  destruct (raised (Router.matches_loop before method path)) eqn:Hb; [discriminate |].
  destruct (raised (Router.matches_loop [ri] method path)) eqn:Hri; [discriminate |].
  destruct (raised (Router.matches_loop between method path)) eqn:Ht; [discriminate |].
  destruct (matches_loop_single_yields ri method path Hi Hri) as [mi [yi Hyi]].
  destruct (matches_loop_single_yields rj method path Hj Hraised) as [mj [yj Hyj]].
  exists mi, mj, yi, yj,
    (yields (Router.matches_loop before method path)),
    (yields (Router.matches_loop between method path)),
    (yields (Router.matches_loop after method path)).
  assert (Hsingle : forall r : route,
            Forall (fun m : route_match => RouteMatch.route m = r)
              (yields (Router.matches_loop [r] method path))).
  { intros r. eapply Forall_impl; [| apply matches_loop_yields_from_table].
    intros m [H | []]. now symmetry. }
  split; [| repeat split].
  - rewrite matches_loop_app, (matches_loop_cons ri), matches_loop_app,
      (matches_loop_cons rj).
    rewrite (@yields_gen_app_app _ _ _ Hb), (@yields_gen_app_app _ _ _ Hri),
      (@yields_gen_app_app _ _ _ Ht), (@yields_gen_app_app _ _ _ Hraised).
    now rewrite Hyi, Hyj.
  - apply matches_loop_yields_from_table.
  - rewrite <- Hyi. apply Hsingle.
  - apply matches_loop_yields_from_table.
  - rewrite <- Hyj. apply Hsingle.
  - apply matches_loop_yields_from_table.
Qed.

(** C7. A route whose path template is the catch-all pattern, whose method
    lets the request through and whose regular expression captures the path
    under the key 0, makes the generator yield twice in one pass: first the
    shortcut, with parameter 0 bound to the template itself, then the result
    of the regular expression, with parameter 0 bound to the path.  The
    routes before and after it contribute as they do without it. *)
Theorem C7_catch_all_yields_twice :
  forall (before after : list route) (r : route) (method path whole : string),
    Route.path r = "(.*)" ->
    accepts_method r method = true ->
    RegExp.exec (Route.regexp r) path = Some [Some whole; Some path] ->
    map Key.name (Route.keys r) = ["0"] ->
    Router.matches (Router.mk [r]) method path
    = Yield (RouteMatch.mk r [("0", "(.*)")] None)
        (Yield (RouteMatch.mk r [("0", path)] (Some [Some whole; Some path])) Return)
    /\ Router.matches (Router.mk (before ++ r :: after)) method path
       = gen_app (Router.matches (Router.mk before) method path)
           (Yield (RouteMatch.mk r [("0", "(.*)")] None)
              (Yield (RouteMatch.mk r [("0", path)] (Some [Some whole; Some path]))
                 (Router.matches (Router.mk after) method path))).
Proof.
  intros before after r method path whole Hpath Hmethod Hexec Hkeys.
  assert (Hone : Router.matches_loop [r] method path
                 = Yield (RouteMatch.mk r [("0", "(.*)")] None)
                     (Yield (RouteMatch.mk r [("0", path)]
                               (Some [Some whole; Some path])) Return)).
  { cbn [Router.matches_loop]. unfold accepts_method in Hmethod.
    apply orb_true_iff in Hmethod.
    replace (negb (String.eqb (route_method_name (Route.method r)) method)
             && negb (String.eqb (route_method_name (Route.method r)) "ALL"))
      with false
      by (destruct Hmethod as [-> | ->]; cbn [negb andb];
          [reflexivity | now rewrite andb_false_r]).
    rewrite Hexec, Hpath.
    change (String.eqb "(.*)" "(.*)") with true.
    change (String.eqb "(.*)" "/") with false.
    cbn [andb length Nat.eqb].
    destruct (Route.keys r) as [| k [| k' ks]]; cbn [map] in Hkeys; try discriminate.
    injection Hkeys as Hk. unfold keysToParams. cbn [tl keysToParams_loop obj_set].
    rewrite Hk. reflexivity. }
  unfold Router.matches. cbn [Router.routes]. split.
  - exact Hone.
  - rewrite matches_loop_app, matches_loop_cons, Hone. reflexivity.
Qed.

(** *** The dispatcher *)

Lemma handle_unfold : forall (this : router) (request : Request.t) (env : Env)
    (event : ExecutionContext) (w : World),
  Router.handle this request env event w
  = Router.handle_loop request
      (Router.matches this (Request.method request) (URL.pathname (Request.url request)))
      [] (initial_context request env event) w.
Proof. reflexivity. Qed.

(** Handlers that defer leave the outcome of the loop to what follows. *)
Lemma pending_handle_loop : forall (request : Request.t) s s',
  pending (World := World) (Env := Env) (ExecutionContext := ExecutionContext) s s' ->
  Router.handle_loop request (fst (fst (fst s))) (snd (fst (fst s))) (snd (fst s)) (snd s)
  = Router.handle_loop request (fst (fst (fst s'))) (snd (fst (fst s'))) (snd (fst s')) (snd s').
Proof.
  intros request s s' H.
  induction H as [s | m rest callbacks ctx w callback w' s' Hh _ IH
                    | m rest callbacks ctx w w' s' Hh _ IH].
  - reflexivity.
  - cbn [fst snd] in *. cbn [Router.handle_loop]. rewrite Hh. exact IH.
  - cbn [fst snd] in *. cbn [Router.handle_loop]. rewrite Hh. exact IH.
Qed.

(** C3. A request that no registered route matches (so that no wildcard
    route takes it either) is answered with status 404 and body
    "Not Found"; no handler runs, the store is untouched. *)
Theorem C3_unmatched_request_is_not_found :
  forall (this : router) (request : Request.t) (env : Env)
         (event : ExecutionContext) (w : World),
    forallb (fun r => negb (route_applies (Request.method request)
                              (URL.pathname (Request.url request)) r))
      (Router.routes this) = true ->
    Router.handle this request env event w
    = (Normal (Response.mk 404 "" [("content-type", "text/plain;charset=UTF-8")]
                 (Some "Not Found")), w).
Proof.
  intros this request env event w H.
  rewrite handle_unfold. unfold Router.matches.
  rewrite (matches_loop_none _ _ _ H). reflexivity.
Qed.

(** The loop over matches whose handlers all defer ends in the not-found
    response, whatever the method. *)
Lemma handle_loop_all_defer : forall (request : Request.t) (g : Generator route_match),
  raised g = None ->
  (forall m, In m (yields g) ->
     forall ctx w, defers (Route.handler (RouteMatch.route m) ctx w)) ->
  forall callbacks ctx w,
    fst (Router.handle_loop request g callbacks ctx w) = Router.not_found.
Proof.
  intros request g. induction g as [| m rest IH | e]; intros Hraised Hdefer callbacks ctx w.
  - reflexivity.
  - cbn [Router.handle_loop].
    pose proof (Hdefer m (or_introl eq_refl)
                  (Context.set_params ctx (RouteMatch.params m)) w) as Hm.
    cbn [raised] in Hraised. cbn [yields] in Hdefer.
    destruct (Route.handler (RouteMatch.route m)
                (Context.set_params ctx (RouteMatch.params m)) w)
      as [[[r | callback |] | err] w']; cbn [defers] in Hm; try contradiction.
    + apply IH; [assumption | intros m' Hin; apply Hdefer; now right].
    + apply IH; [assumption | intros m' Hin; apply Hdefer; now right].
  - discriminate.
Qed.

(** C10. The body is removed for HEAD only where a response is finalized.
    A HEAD request for which no matched route ends the request (every
    matched handler returns a callback or [undefined], none at all
    included) gets the not-found response, status 404, with its body
    "Not Found" in place. *)
Theorem C10_head_not_found_keeps_body :
  forall (this : router) (request : Request.t) (env : Env)
         (event : ExecutionContext) (w : World),
    Request.method request = "HEAD" ->
    raised (Router.matches this "HEAD" (URL.pathname (Request.url request))) = None ->
    (forall m,
       In m (yields (Router.matches this "HEAD" (URL.pathname (Request.url request)))) ->
       forall ctx w', defers (Route.handler (RouteMatch.route m) ctx w')) ->
    exists r,
      fst (Router.handle this request env event w) = Normal r
      /\ Response.status r = 404
      /\ Response.body r = Some "Not Found".
Proof.
  intros this request env event w Hhead Hraised Hdefer.
  exists (Response.mk 404 "" [text_plain] (Some "Not Found")).
  split; [| split; reflexivity].
  rewrite handle_unfold, Hhead. now apply handle_loop_all_defer.
Qed.

(** *** Callbacks and finalization *)


Lemma finalize_unfold :
  forall (request : Request.t) (callbacks : list (RouteCallback World))
         (r : Response.t) (e : option Error.t) (w : World),
    Router.finalize request callbacks r e w
    = (if String.eqb (Request.method request) "HEAD"
       then Response.new (Some "")
              (Response.as_init (fst (fst (Router.run_callbacks callbacks r e w))))
       else Normal (fst (fst (Router.run_callbacks callbacks r e w))),
       snd (Router.run_callbacks callbacks r e w)).
Proof.
  intros request callbacks r e w. unfold Router.finalize.
  destruct (Router.run_callbacks callbacks r e w) as [[r' e'] w'].
  cbn [fst snd]. destruct (String.eqb (Request.method request) "HEAD"); reflexivity.
Qed.

(** What the constructor makes of a response and the empty body. *)
Lemma new_empty_body : forall r : Response.t,
  Response.new (Some "") (Response.as_init r)
  = if Nat.leb 200 (Response.status r) && Nat.leb (Response.status r) 599
    then
      if Response.null_body_status (Response.status r)
      then Throw Response.TypeError_null_body
      else Normal (Response.mk (Response.status r) (Response.statusText r)
                     (if Response.has_header "content-type" (Response.headers r)
                      then Response.headers r
                      else Response.headers r ++ [text_plain])
                     (Some ""))
    else Throw Response.RangeError_status.
Proof.
  intros r. unfold Response.new, Response.as_init.
  cbn [ResponseInit.status ResponseInit.statusText ResponseInit.headers].
  destruct (Nat.leb 200 (Response.status r) && Nat.leb (Response.status r) 599);
    reflexivity.
Qed.

(** Callbacks that all throw leave the response as it was. *)
Lemma run_callbacks_all_throw :
  forall (callbacks : list (RouteCallback World)) (r : Response.t)
         (e : option Error.t) (w : World),
    (forall callback, In callback callbacks ->
       forall r' e' w', exists err w'', callback r' e' w' = (Throw err, w'')) ->
    fst (fst (Router.run_callbacks callbacks r e w)) = r.
Proof.
  induction callbacks as [| callback callbacks IH]; intros r e w Hall.
  - reflexivity.
  - cbn [Router.run_callbacks].
    destruct (Hall callback (or_introl eq_refl) r e w) as [err [w'' Hthrow]].
    rewrite Hthrow. apply IH. intros c Hin. apply Hall. now right.
Qed.


(** An exception that leaves the loop of [handle] was raised by the match
    generator, or by the constructor that removes the body for HEAD. *)
Lemma handle_loop_throws :
  forall (request : Request.t) (g : Generator route_match)
         (callbacks : list (RouteCallback World)) (ctx : context) (w : World)
         (e : Error.t),
    fst (Router.handle_loop request g callbacks ctx w) = Throw e ->
    raised g = Some e
    \/ (Request.method request = "HEAD"
        /\ (e = Response.RangeError_status \/ e = Response.TypeError_null_body)).
Proof.
  intros request g.
  assert (Hfinal : forall (callbacks : list (RouteCallback World)) r err (w : World) e,
    fst (Router.finalize request callbacks r err w) = Throw e ->
    Request.method request = "HEAD"
    /\ (e = Response.RangeError_status \/ e = Response.TypeError_null_body)).
  { intros callbacks r err w e H. rewrite finalize_unfold in H. cbn [fst] in H.
    destruct (String.eqb (Request.method request) "HEAD") eqn:Hhead; [| discriminate].
    apply String.eqb_eq in Hhead. split; [exact Hhead |].
    rewrite new_empty_body in H.
    destruct (Nat.leb 200 _ && Nat.leb _ 599);
      [destruct (Response.null_body_status _); [| discriminate] |];
      injection H as <-; [now right | now left]. }
  induction g as [| m rest IH | e0]; intros callbacks ctx w e H.
  - discriminate.
  - cbn [Router.handle_loop] in H. cbn [raised].
    destruct (Route.handler (RouteMatch.route m)
                (Context.set_params ctx (RouteMatch.params m)) w)
      as [[[r | callback |] | err] w'].
    + right. now apply Hfinal in H.
    + now apply IH in H.
    + now apply IH in H.
    + right. cbv [Router.server_error] in H. now apply Hfinal in H.
  - cbn in H. injection H as ->. now left.
Qed.

(** C2, as amended.  Whatever handlers and callbacks throw, [handle] lets
    out no exception of theirs: an exception leaves [handle] only if the
    match generator raised it or, for a HEAD request, if the constructor
    that removes the body threw it; on a table whose routes have a key for
    every capture group and for a method other than HEAD, [handle] returns
    a response.  When the first handler that ends the request throws, the
    response that is finalized is the default error response, status 500
    and body "Server Error", passed through the callbacks accumulated so
    far; without callbacks, or when they all throw, [handle] returns that
    response, its body emptied when the request method is HEAD. *)
Theorem C2_handler_error_gives_server_error :
  forall (this : router) (request : Request.t) (env : Env)
         (event : ExecutionContext) (w : World),
    let method := Request.method request in
    let pathname := URL.pathname (Request.url request) in
    (forall e, fst (Router.handle this request env event w) = Throw e ->
               raised (Router.matches this method pathname) = Some e
               \/ (method = "HEAD"
                   /\ (e = Response.RangeError_status
                       \/ e = Response.TypeError_null_body)))
    /\ (Forall keys_cover (Router.routes this) -> method <> "HEAD" ->
        exists r, fst (Router.handle this request env event w) = Normal r)
    /\ (forall m rest callbacks ctx w1 err w2,
          pending (Router.matches this method pathname, [],
                   initial_context request env event, w)
                  (Yield m rest, callbacks, ctx, w1) ->
          Route.handler (RouteMatch.route m)
            (Context.set_params ctx (RouteMatch.params m)) w1 = (Throw err, w2) ->
          Router.handle this request env event w
          = Router.finalize request callbacks
              (Response.mk 500 "" [("content-type", "text/plain;charset=UTF-8")]
                 (Some "Server Error"))
              (Some err) w2
          /\ ((forall callback, In callback callbacks ->
                 forall r' e' w', exists err' w'', callback r' e' w' = (Throw err', w'')) ->
              fst (Router.handle this request env event w)
              = Normal (Response.mk 500 ""
                          [("content-type", "text/plain;charset=UTF-8")]
                          (Some (if String.eqb method "HEAD" then "" else "Server Error"))))).
Proof.
  intros this request env event w method pathname. subst method pathname.
  split; [| split].
  - intros e H. rewrite handle_unfold in H. now apply handle_loop_throws in H.
  - intros Hcover Hmethod.
    destruct (fst (Router.handle this request env event w)) as [r | e] eqn:Hfst.
    + now exists r.
    + rewrite handle_unfold in Hfst. apply handle_loop_throws in Hfst.
      destruct Hfst as [Hfst | [Hhead _]]; [| contradiction].
      unfold Router.matches in Hfst.
      rewrite (matches_loop_never_raises _ _ Hcover) in Hfst. discriminate.
  - intros m rest callbacks ctx w1 err w2 Hpending Hthrow.
    assert (Hhandle : Router.handle this request env event w
                      = Router.finalize request callbacks
                          (Response.mk 500 "" [text_plain] (Some "Server Error"))
                          (Some err) w2).
    { rewrite handle_unfold.
      pose proof (pending_handle_loop request Hpending) as Hloop.
      cbn [fst snd] in Hloop. rewrite Hloop.
      cbn [Router.handle_loop]. rewrite Hthrow. reflexivity. }
    split; [exact Hhandle |].
    intros Hall. rewrite Hhandle, finalize_unfold. cbn [fst].
    rewrite (run_callbacks_all_throw _ _ _ _ Hall).
    destruct (String.eqb (Request.method request) "HEAD"); reflexivity.
Qed.

(** *** Registration *)

Lemma push_ok :
  forall (pathToRegexp : string -> RouteOptions.t -> Completion (RegExp.t * Keys))
         (method : RouteMethod) (path : string) (h : handler)
         (options : RouteOptions.t) (this : router) (regexp : RegExp.t) (keys : Keys),
    pathToRegexp (template path) options = Normal (regexp, keys) ->
    Router.push pathToRegexp method path h options this
    = (Normal (Router.mk (Router.routes this
                          ++ [Route.mk method (template path) regexp options keys h])),
       Router.mk (Router.routes this
                  ++ [Route.mk method (template path) regexp options keys h])).
Proof.
  intros pathToRegexp method path h options this regexp keys H.
  unfold Router.push. fold (template path). now rewrite H.
Qed.

Lemma push_throws :
  forall (pathToRegexp : string -> RouteOptions.t -> Completion (RegExp.t * Keys))
         (method : RouteMethod) (path : string) (h : handler)
         (options : RouteOptions.t) (this : router) (e : Error.t),
    pathToRegexp (template path) options = Throw e ->
    Router.push pathToRegexp method path h options this = (Throw e, this).
Proof.
  intros pathToRegexp method path h options this e H.
  unfold Router.push. fold (template path). now rewrite H.
Qed.

Lemma get_ok :
  forall (pathToRegexp : string -> RouteOptions.t -> Completion (RegExp.t * Keys))
         (path : string) (h : handler) (options : RouteOptions.t) (this : router)
         (regexp : RegExp.t) (keys : Keys),
    pathToRegexp (template path) options = Normal (regexp, keys) ->
    Router.get pathToRegexp path h options this
    = (Normal (Router.mk (Router.routes this
                          ++ [Route.mk (Exactly GET) (template path) regexp options keys h;
                              Route.mk (Exactly HEAD) (template path) regexp options keys h])),
       Router.mk (Router.routes this
                  ++ [Route.mk (Exactly GET) (template path) regexp options keys h;
                      Route.mk (Exactly HEAD) (template path) regexp options keys h])).
Proof.
  intros pathToRegexp path h options this regexp keys H.
  unfold Router.get, Router.chain.
  rewrite (push_ok _ _ _ _ _ _ H), (push_ok _ _ _ _ _ _ H).
  cbn [Router.routes]. now rewrite <- app_assoc.
Qed.

(** C9, as amended.  Every registration call hands one template to the
    pattern compiler.  If the compiler throws, the call throws that error
    and the route table is as it was.  If it succeeds, the call appends one
    route per method it registers, each with the compiled template, and
    returns the router itself: one route for [push] and for every shorthand
    but [get], two for [get] (GET, then HEAD). *)
Theorem C9_registration_appends_or_throws :
  forall (pathToRegexp : string -> RouteOptions.t -> Completion (RegExp.t * Keys))
         (call : registration) (h : handler) (options : RouteOptions.t)
         (this : router),
    match pathToRegexp (registered_template call) options with
    | Throw e => perform pathToRegexp call h options this = (Throw e, this)
    | Normal (regexp, keys) =>
        let appended :=
          map (fun method =>
                 Route.mk method (registered_template call) regexp options keys h)
            (registered_methods call) in
        perform pathToRegexp call h options this
        = (Normal (Router.mk (Router.routes this ++ appended)),
           Router.mk (Router.routes this ++ appended))
    end
    /\ length (registered_methods call)
       = match call with call_get _ => 2 | _ => 1 end.
Proof.
  intros pathToRegexp call h options this. split.
  - destruct (pathToRegexp (registered_template call) options)
      as [[regexp keys] | e] eqn:Hcompile.
    + cbv zeta.
      destruct call; cbn [perform registered_template registered_methods map] in *;
        unfold Router.all, Router.post, Router.put, Router.patch, Router.delete,
          Router.head, Router.options, Router.use;
        first [now apply push_ok | now apply get_ok].
    + destruct call; cbn [perform registered_template] in *;
        unfold Router.all, Router.get, Router.post, Router.put, Router.patch,
          Router.delete, Router.head, Router.options, Router.use, Router.chain;
        first [now apply push_throws
              | now rewrite (push_throws _ _ _ _ _ _ Hcompile)].
  - destruct call; reflexivity.
Qed.

(** *** allowedMethods *)

Lemma obj_keys_set : forall (V : Type) (o : JsObject V) (k : string) (v : V),
  obj_keys (obj_set o k v) = add_key (obj_keys o) k.
Proof.
  intros V o k v. unfold add_key, obj_keys.
  induction o as [| [k' v'] o IH]; cbn [obj_set map fst existsb].
  - reflexivity.
  - rewrite (String.eqb_sym k k').
    destruct (String.eqb k' k) eqn:Hk; cbn [orb map fst].
    + apply String.eqb_eq in Hk. now subst k'.
    + rewrite IH. now destruct (existsb (String.eqb k) (map fst o)).
Qed.

(** The keys of the [allow] object after the scan of the table. *)
Lemma allow_keys : forall (rs : list route) (pathname : string) (allow : JsObject bool),
  obj_keys (fold_left (Router.allow_route pathname) rs allow)
  = fold_left add_key (scanned_methods rs pathname) (obj_keys allow).
Proof.
  induction rs as [| r rs IH]; intros pathname allow.
  - reflexivity.
  - cbn [fold_left]. rewrite IH.
    unfold scanned_methods. cbn [filter].
    unfold Router.allow_route, regexp_accepts.
    destruct (Route.method r) as [m |] eqn:Hm; [| reflexivity].
    destruct (RegExp.exec (Route.regexp r) pathname) as [[| whole captures] |];
      cbn [length Nat.eqb map fold_left]; try reflexivity.
    now rewrite obj_keys_set, Hm.
Qed.

(** C5, as amended.  The handler of [allowedMethods] answers 204 with the
    single header [allow]: OPTIONS first, then the methods of the routes
    with a concrete method whose matcher accepts the request path, in the
    order of the table, each listed once; routes registered for ALL are
    skipped.  For a table built with the [get] and [post] shorthands at one
    path, and a request to that path, the header is
    "OPTIONS, GET, HEAD, POST": [get] registers HEAD as well. *)
Theorem C5_allowed_methods_lists_head :
  forall (this : router) (ctx : context) (w : World),
    let pathname := URL.pathname (Request.url (Context.request ctx)) in
    Router.allowedMethods this ctx w
    = (Normal (IsResponse
         (Response.mk 204 ""
            [("allow",
              join ", " (fold_left add_key
                           (scanned_methods (Router.routes this) pathname)
                           ["OPTIONS"]))]
            None)), w)
    /\ (forall (pathToRegexp : string -> RouteOptions.t -> Completion (RegExp.t * Keys))
               (path : string) (h1 h2 : handler) (o1 o2 : RouteOptions.t)
               (re1 re2 : RegExp.t) (k1 k2 : Keys)
               (m1 m2 : option string) (c1 c2 : list (option string)),
          pathToRegexp (template path) o1 = Normal (re1, k1) ->
          pathToRegexp (template path) o2 = Normal (re2, k2) ->
          RegExp.exec re1 pathname = Some (m1 :: c1) ->
          RegExp.exec re2 pathname = Some (m2 :: c2) ->
          Router.allowedMethods
            (snd (Router.chain (Router.get pathToRegexp path h1 o1)
                    (Router.post pathToRegexp path h2 o2) Router.new))
            ctx w
          = (Normal (IsResponse
               (Response.mk 204 "" [("allow", "OPTIONS, GET, HEAD, POST")] None)), w)).
Proof.
  intros this ctx w pathname.
  assert (Hgeneral : forall this' : router,
    Router.allowedMethods this' ctx w
    = (Normal (IsResponse
         (Response.mk 204 ""
            [("allow",
              join ", " (fold_left add_key
                           (scanned_methods (Router.routes this') pathname)
                           ["OPTIONS"]))]
            None)), w)).
  { intros this'. unfold Router.allowedMethods. fold pathname.
    rewrite allow_keys. reflexivity. }
  split; [apply Hgeneral |].
  intros pathToRegexp path h1 h2 o1 o2 re1 re2 k1 k2 m1 m2 c1 c2 Hc1 Hc2 He1 He2.
  rewrite Hgeneral. unfold Router.chain.
  rewrite (get_ok _ _ _ _ _ Hc1). unfold Router.post.
  rewrite (push_ok _ _ _ _ _ _ Hc2).
  cbn [snd Router.routes Router.new app].
  unfold scanned_methods, regexp_accepts.
  cbn [filter Route.method Route.regexp]. rewrite He1, He2.
  reflexivity.
Qed.

End Properties.

(* ------------------------------------------------------------------ *)
(** ** The properties at concrete routers *)

Import Fixture Scenario.

Lemma C1_matches_in_registration_order_witness :
  let a := Route.mk (Exactly GET) "/a" (literal false "/a") E [] (respond "a" (ok "hello")) in
  let p := Route.mk (Exactly POST) "/a" (literal false "/a") E [] (respond "p" (ok "posted")) in
  let u := wildcard (middleware "m" (tagging "t")) in
  yields (Router.matches (Router.mk [p; a; p; u; a]) "GET" "/a")
  = [RouteMatch.mk a [] (Some [Some "/a"]);
     RouteMatch.mk u [("0", "(.*)")] None;
     RouteMatch.mk u [("0", "/a")] (Some [Some "/a"; Some "/a"]);
     RouteMatch.mk a [] (Some [Some "/a"])]
  /\ exists (mi mj : RouteMatch.t handler) (yi yj yb yt ya : list (RouteMatch.t handler)),
       yields (Router.matches (Router.mk ([p] ++ a :: [p] ++ u :: [a])) "GET" "/a")
       = yb ++ (mi :: yi) ++ yt ++ (mj :: yj) ++ ya
       /\ Forall (fun m => In (RouteMatch.route m) [p]) yb
       /\ Forall (fun m => RouteMatch.route m = a) (mi :: yi)
       /\ Forall (fun m => In (RouteMatch.route m) [p]) yt
       /\ Forall (fun m => RouteMatch.route m = u) (mj :: yj)
       /\ Forall (fun m => In (RouteMatch.route m) [a]) ya.
Proof.
  cbv zeta. split; [reflexivity |].
  apply (@C1_matches_in_registration_order World unit unit
           [Route.mk (Exactly POST) "/a" (literal false "/a") E [] (respond "p" (ok "posted"))]
           [Route.mk (Exactly POST) "/a" (literal false "/a") E [] (respond "p" (ok "posted"))]
           [Route.mk (Exactly GET) "/a" (literal false "/a") E [] (respond "a" (ok "hello"))]
           (Route.mk (Exactly GET) "/a" (literal false "/a") E [] (respond "a" (ok "hello")))
           (wildcard (middleware "m" (tagging "t"))) "GET" "/a");
    reflexivity.
Defined.

Lemma C7_catch_all_yields_twice_witness :
  Router.routes (built (Router.use pathToRegexp echo_param E)) = [wildcard echo_param]
  /\ Router.matches (Router.mk [wildcard echo_param]) "GET" "/users/42"
     = Yield (RouteMatch.mk (wildcard echo_param) [("0", "(.*)")] None)
         (Yield (RouteMatch.mk (wildcard echo_param) [("0", "/users/42")]
                   (Some [Some "/users/42"; Some "/users/42"])) Return).
Proof.
  split; [reflexivity |].
  apply (proj1 (@C7_catch_all_yields_twice World unit unit [] []
                  (wildcard echo_param) "GET" "/users/42" "/users/42"
                  eq_refl eq_refl eq_refl eq_refl)).
Defined.

Lemma C3_unmatched_request_is_not_found_witness :
  Router.handle (built (Router.get pathToRegexp "/a" (respond "a" (ok "hello")) E))
    (request "POST" "/a") tt tt []
  = (Normal (Response.mk 404 "" [("content-type", "text/plain;charset=UTF-8")]
               (Some "Not Found")), []).
Proof.
  apply (@C3_unmatched_request_is_not_found World unit unit
           (built (Router.get pathToRegexp "/a" (respond "a" (ok "hello")) E))
           (request "POST" "/a") tt tt []).
  reflexivity.
Defined.

Lemma C10_head_not_found_keeps_body_witness :
  exists r,
    fst (Router.handle
           (built (Router.use pathToRegexp (middleware "m" (tagging "t")) E))
           (request "HEAD" "/a") tt tt [])
    = Normal r
    /\ Response.status r = 404
    /\ Response.body r = Some "Not Found".
Proof.
  apply (@C10_head_not_found_keeps_body World unit unit
           (built (Router.use pathToRegexp (middleware "m" (tagging "t")) E))
           (request "HEAD" "/a") tt tt []).
  - reflexivity.
  - reflexivity.
  - intros m Hin ctx w'. simpl in Hin.
    destruct Hin as [<- | [<- | []]]; exact I.
Defined.


Lemma C2_handler_error_gives_server_error_witness :
  fst (Router.handle
         (built (Router.chain
                   (Router.use pathToRegexp (middleware "m" (failing_callback "c")) E)
                   (Router.get pathToRegexp "/a" (failing "h") E)))
         (request "GET" "/a") tt tt [])
  = Normal (Response.mk 500 "" [("content-type", "text/plain;charset=UTF-8")]
              (Some "Server Error")).
Proof.
  pose (this := built (Router.chain
                   (Router.use pathToRegexp (middleware "m" (failing_callback "c")) E)
                   (Router.get pathToRegexp "/a" (failing "h") E))).
  pose (g := Router.matches this "GET" "/a").
  destruct (@C2_handler_error_gives_server_error World unit unit this
              (request "GET" "/a") tt tt []) as [_ [_ H]].
  refine (proj2 (H (RouteMatch.mk
                      (Route.mk (Exactly GET) "/a" (literal false "/a") E [] (failing "h"))
                      [] (Some [Some "/a"]))
                   Return
                   [failing_callback "c"; failing_callback "c"]
                   (Context.set_params
                      (initial_context (request "GET" "/a") tt tt) [("0", "/a")])
                   ["m"; "m"] (Error.mk "Error" "h") ["m"; "m"; "h"] _ eq_refl) _).
  - eapply pending_callback; [reflexivity |].
    eapply pending_callback; [reflexivity |].
    apply pending_here.
  - intros callback Hin r' e' w'. simpl in Hin.
    destruct Hin as [<- | [<- | []]]; eexists; eexists; reflexivity.
Defined.

Lemma C5_allowed_methods_lists_head_witness :
  Router.allowedMethods
    (built (Router.chain (Router.get pathToRegexp "/a" (respond "g" (ok "got")) E)
              (Router.post pathToRegexp "/a" (respond "p" (ok "posted")) E)))
    (initial_context (request "OPTIONS" "/a") tt tt) []
  = (Normal (IsResponse
       (Response.mk 204 "" [("allow", "OPTIONS, GET, HEAD, POST")] None)), []).
Proof.
  apply (proj2 (@C5_allowed_methods_lists_head World unit unit Router.new
                  (initial_context (request "OPTIONS" "/a") tt tt) [])
           pathToRegexp "/a" (respond "g" (ok "got")) (respond "p" (ok "posted"))
           E E (literal false "/a") (literal false "/a") [] [] (Some "/a") (Some "/a")
           [] [] eq_refl eq_refl eq_refl eq_refl).
Defined.

Lemma C9_registration_appends_or_throws_witness :
  perform pathToRegexp (call_get "/(") (respond "a" (ok "hello")) E
    (built (Router.post pathToRegexp "/a" (respond "p" (ok "posted")) E))
  = (Throw (Error.mk "TypeError" "Unexpected pattern in /("),
     built (Router.post pathToRegexp "/a" (respond "p" (ok "posted")) E)).
Proof.
  exact (proj1 (@C9_registration_appends_or_throws World unit unit pathToRegexp
                  (call_get "/(") (respond "a" (ok "hello")) E
                  (built (Router.post pathToRegexp "/a" (respond "p" (ok "posted")) E)))).
Defined.

(** C2, the claim as stated fails, in three ways.  A HEAD request whose
    handler throws, with no callback to replace the response, is answered
    with status 500 and the empty body, not "Server Error".  A HEAD request
    whose handler answers 204 is not answered at all: the constructor that
    removes the body throws, and the exception leaves [handle].  And a
    request that reaches a route with fewer keys than capture groups makes
    the match generator throw, which leaves [handle] as well. *)
Lemma C2_counterexample :
  let this := built (Router.get pathToRegexp "/a" (failing "h") E) in
  (fst (failing "h" (initial_context (request "HEAD" "/a") tt tt) [])
   = Throw (Error.mk "Error" "h")
   /\ fst (Router.handle this (request "HEAD" "/a") tt tt [])
      = Normal (Response.mk 500 "" [("content-type", "text/plain;charset=UTF-8")]
                  (Some ""))
   /\ forall headers,
        fst (Router.handle this (request "HEAD" "/a") tt tt [])
        <> Normal (Response.mk 500 "" headers (Some "Server Error")))
  /\ (fst (Router.handle
             (built (Router.get pathToRegexp "/a" (respond "n" no_content) E))
             (request "HEAD" "/a") tt tt [])
      = Throw (Error.mk "TypeError" "Response with null body status cannot have body."))
  /\ (fst (Router.handle (Router.mk [keyless_route (respond "u" (ok "user"))])
             (request "GET" "/users/42") tt tt [])
      = Throw (Error.mk "TypeError"
                 "Cannot read properties of undefined (reading 'name')")).
Proof.
  cbv zeta. split; [split; [reflexivity | split; [reflexivity |]] |].
  - intros headers H. vm_compute in H. discriminate H.
  - split; reflexivity.
Qed.

(** C5, the claim as stated fails: with GET and POST registered at one path
    through [get] and [post], the header is "OPTIONS, GET, HEAD, POST". *)
Lemma C5_counterexample :
  let this := built (Router.chain
                       (Router.get pathToRegexp "/a" (respond "g" (ok "got")) E)
                       (Router.post pathToRegexp "/a" (respond "p" (ok "posted")) E)) in
  let answer :=
    fst (Router.allowedMethods this (initial_context (request "OPTIONS" "/a") tt tt) []) in
  answer = Normal (IsResponse
             (Response.mk 204 "" [("allow", "OPTIONS, GET, HEAD, POST")] None))
  /\ answer <> Normal (IsResponse
                 (Response.mk 204 "" [("allow", "OPTIONS, GET, POST")] None)).
Proof.
  cbv zeta. split; [reflexivity |].
  intros H. vm_compute in H. discriminate H.
Qed.

(** C9, the claim as stated fails: the template compiles and [get] appends
    two routes, not exactly one. *)
Lemma C9_counterexample :
  let after := Router.get pathToRegexp "/a" (respond "a" (ok "hello")) E Router.new in
  (exists compiled, pathToRegexp "/a" E = Normal compiled)
  /\ (exists returned, fst after = Normal returned)
  /\ length (Router.routes (snd after)) = 2
  /\ length (Router.routes (snd after))
     <> length (Router.routes (Router.new (World := World) (Env := unit)
                                 (ExecutionContext := unit))) + 1.
Proof.
  cbv zeta. split; [eexists; reflexivity | split; [eexists; reflexivity |]].
  split; [reflexivity | vm_compute; discriminate].
Qed.

(** C4, the code at the route pair [get] registers.  [get] appends a GET
    and a HEAD route with the same path and handler, and a GET request is
    answered with the handler's response.  For a HEAD request the body is
    removed by building a new response from the empty string and the
    handler's response: when that response has status 204 (or another null
    body status) the constructor throws a TypeError, when it has a status
    outside 200..599 (as the response of [Response.error()]) a RangeError,
    and the exception leaves [handle]; when the handler's response has no
    content-type header, the response returned has one more header than the
    handler produced. *)
Lemma C4_head_body_removal_throws_or_adds_a_header :
  let registered h := built (Router.get pathToRegexp "/a" h E) in
  map (fun r => (route_method_name (Route.method r), Route.path r))
    (Router.routes (registered (respond "n" no_content)))
  = [("GET", "/a"); ("HEAD", "/a")]
  /\ Router.handle (registered (respond "n" no_content)) (request "GET" "/a") tt tt []
     = (Normal no_content, ["n"])
  /\ Router.handle (registered (respond "n" no_content)) (request "HEAD" "/a") tt tt []
     = (Throw (Error.mk "TypeError" "Response with null body status cannot have body."),
        ["n"])
  /\ Router.handle (registered (respond "e" network_error)) (request "HEAD" "/a") tt tt []
     = (Throw (Error.mk "RangeError"
                 "The status provided is outside the range [200, 599]."),
        ["e"])
  /\ Router.handle (registered (respond "u" untyped)) (request "HEAD" "/a") tt tt []
     = (Normal (Response.mk 200 "OK"
                  [("x-id", "7"); ("content-type", "text/plain;charset=UTF-8")]
                  (Some "")),
        ["u"])
  /\ Router.handle (registered (respond "a" (ok "hello"))) (request "HEAD" "/a") tt tt []
     = (Normal (Response.mk 200 "OK" [("content-type", "text/plain")] (Some "")),
        ["a"]).
Proof.
  cbv zeta. repeat split; reflexivity.
Qed.

(** C6, the code at a route registered with path "*": for GET /users/42 the
    generator yields the route twice, first with parameter 0 bound to the
    template, then with parameter 0 bound to the request path; a handler
    that answers on the first match sees the template, not the path. *)
Lemma C6_wildcard_first_match_binds_template :
  let this := built (Router.all pathToRegexp "*" echo_param E) in
  map (fun m => RouteMatch.params m) (yields (Router.matches this "GET" "/users/42"))
  = [[("0", "(.*)")]; [("0", "/users/42")]]
  /\ raised (Router.matches this "GET" "/users/42") = None
  /\ Router.handle this (request "GET" "/users/42") tt tt []
     = (Normal (Response.mk 200 "" [] (Some "(.*)")), []).
Proof.
  cbv zeta. repeat split; reflexivity.
Qed.

(* ------------------------------------------------------------------ *)
(** ** Further properties of the code *)

Section FurtherProperties.

Context {World Env ExecutionContext : Type}.

Local Abbreviation handler := (Handler World Env ExecutionContext).
Local Abbreviation route := (Route.t handler).
Local Abbreviation route_match := (RouteMatch.t handler).
Local Abbreviation router := (Router.t World Env ExecutionContext).
Local Abbreviation context := (Context.t Env ExecutionContext).

(** *** Objects *)

Lemma obj_get_set_same : forall (V : Type) (o : JsObject V) (k : string) (v : V),
  obj_get (obj_set o k v) k = Some v.
Proof.
  induction o as [| [k' v'] o IH]; intros k v; cbn [obj_set obj_get].
  - now rewrite String.eqb_refl.
  - destruct (String.eqb k' k) eqn:Hk; cbn [obj_get].
    + now rewrite String.eqb_refl.
    + rewrite Hk. apply IH.
Qed.

Lemma obj_get_set_other : forall (V : Type) (o : JsObject V) (k k' : string) (v : V),
  k <> k' -> obj_get (obj_set o k v) k' = obj_get o k'.
Proof.
  induction o as [| [k0 v0] o IH]; intros k k' v Hneq; cbn [obj_set obj_get].
  - apply String.eqb_neq in Hneq. now rewrite Hneq.
  - destruct (String.eqb k0 k) eqn:Hk; cbn [obj_get].
    + apply String.eqb_eq in Hk. subst k0.
      apply String.eqb_neq in Hneq. now rewrite Hneq.
    + destruct (String.eqb k0 k'); [reflexivity | now apply IH].
Qed.

Lemma obj_get_assign_other :
  forall (o : JsObject string) (k k' v : string),
    k <> k' -> obj_get (obj_assign o k v) k' = obj_get o k'.
Proof.
  intros o k k' v Hneq. unfold obj_assign.
  destruct (String.eqb k "__proto__"); [reflexivity |].
  now apply obj_get_set_other.
Qed.

Lemma obj_get_assign_same :
  forall (o : JsObject string) (k v : string),
    obj_get (obj_assign o k v) k
    = if String.eqb k "__proto__" then obj_get o k else Some v.
Proof.
  intros o k v. unfold obj_assign.
  destruct (String.eqb k "__proto__"); [reflexivity |].
  apply obj_get_set_same.
Qed.

(** *** keysToParams *)

Lemma keysToParams_loop_throws :
  forall (captures : list (option string)) (keys : Keys) (params : Params),
    length keys < length captures ->
    keysToParams_loop captures keys params = Throw (TypeError_undefined "name").
Proof.
  induction captures as [| val captures IH]; intros keys params Hlen.
  - cbn [length] in Hlen. lia.
  - destruct keys as [| key keys]; [reflexivity |].
    cbn [keysToParams_loop]. apply IH. cbn [length] in Hlen. lia.
Qed.

(** X1. [keysToParams] throws exactly when the match array holds more
    capture groups than there are keys, and what it throws is then the
    TypeError of reading [name] of [undefined]; with a key for every
    capture group it returns a params object. *)
Theorem X1_keysToParams_throws_iff_key_missing :
  forall (matches : RegExpExecArray) (keys : Keys),
    (length keys < length matches - 1 ->
     keysToParams matches keys = Throw (TypeError_undefined "name"))
    /\ (length matches - 1 <= length keys ->
        exists params, keysToParams matches keys = Normal params).
Proof.
  intros matches keys. unfold keysToParams. split; intros Hlen.
  - apply keysToParams_loop_throws.
    destruct matches; cbn [tl length] in *; lia.
  - apply keysToParams_loop_total.
    destruct matches; cbn [tl length] in *; lia.
Qed.

(** Keys whose names differ from [name] leave its entry alone. *)
Lemma keysToParams_loop_untouched :
  forall (captures : list (option string)) (keys : Keys) (params params' : Params)
         (name : string),
    ~ In name (map Key.name keys) ->
    keysToParams_loop captures keys params = Normal params' ->
    obj_get params' name = obj_get params name.
Proof.
  induction captures as [| val captures IH]; intros keys params params' name Hnot H.
  - cbn in H. now injection H as <-.
  - destruct keys as [| key keys]; [discriminate |].
    cbn [keysToParams_loop] in H. cbn [map In] in Hnot.
    rewrite (IH _ _ _ _ (fun Hin => Hnot (or_intror Hin)) H).
    destruct val as [v |]; [| reflexivity].
    apply obj_get_assign_other. intros Heq. apply Hnot. now left.
Qed.

Lemma keysToParams_loop_lookup :
  forall (captures : list (option string)) (keys : Keys) (params params' : Params),
    NoDup (map Key.name keys) ->
    keysToParams_loop captures keys params = Normal params' ->
    forall (i : nat) (key : Key.t),
      nth_error keys i = Some key ->
      obj_get params' (Key.name key)
      = match nth_error captures i with
        | Some (Some v) =>
            if String.eqb (Key.name key) "__proto__"
            then obj_get params (Key.name key)
            else Some v
        | _ => obj_get params (Key.name key)
        end.
Proof.
  induction captures as [| val captures IH]; intros keys params params' Hnodup H i key Hkey.
  - cbn in H. injection H as <-. now destruct i.
  - destruct keys as [| key0 keys]; [discriminate |].
    cbn [keysToParams_loop] in H. cbn [map] in Hnodup.
    inversion Hnodup as [| name names Hnotin Hnodup']; subst.
    destruct i as [| i]; cbn [nth_error] in *.
    + injection Hkey as ->.
      rewrite (@keysToParams_loop_untouched _ _ _ _ _ Hnotin H).
      destruct val as [v |]; [apply obj_get_assign_same | reflexivity].
    + rewrite (IH _ _ _ Hnodup' H i key Hkey).
      assert (Hother : forall v0,
                obj_get (obj_assign params (Key.name key0) v0) (Key.name key)
                = obj_get params (Key.name key)).
      { intros v0. apply obj_get_assign_other. intros Heq. apply Hnotin.
        rewrite Heq. apply in_map. now apply nth_error_In with i. }
      destruct val as [v0 |]; [rewrite Hother |]; reflexivity.
Qed.

(** X2. When the key names are distinct and [keysToParams] returns, the
    params object binds the name of the key at index i to the capture at
    index i + 1 of the match array, and holds no entry for that name when
    the capture is [undefined] or the array is too short to have one.  The
    one name that is never bound is [__proto__]: assigning a string to it
    reaches the setter of [Object.prototype] and leaves the object as it
    is. *)
Theorem X2_keysToParams_binds_each_key_to_its_capture :
  forall (whole : option string) (captures : list (option string)) (keys : Keys)
         (params : Params),
    NoDup (map Key.name keys) ->
    keysToParams (whole :: captures) keys = Normal params ->
    forall (i : nat) (key : Key.t),
      nth_error keys i = Some key ->
      obj_get params (Key.name key)
      = match nth_error captures i with
        | Some (Some v) =>
            if String.eqb (Key.name key) "__proto__" then None else Some v
        | _ => None
        end.
Proof.
  intros whole captures keys params Hnodup H i key Hkey.
  unfold keysToParams in H. cbn [tl] in H.
  rewrite (@keysToParams_loop_lookup _ _ _ _ Hnodup H _ _ Hkey).
  reflexivity.
Qed.

Lemma keysToParams_loop_sound :
  forall (captures : list (option string)) (keys : Keys) (params params' : Params)
         (name v : string),
    keysToParams_loop captures keys params = Normal params' ->
    obj_get params' name = Some v ->
    obj_get params name = Some v
    \/ exists (i : nat) (key : Key.t),
         nth_error keys i = Some key /\ Key.name key = name
         /\ nth_error captures i = Some (Some v).
Proof.
  induction captures as [| val captures IH]; intros keys params params' name v H Hget.
  - cbn in H. injection H as <-. now left.
  - destruct keys as [| key keys]; [discriminate |].
    cbn [keysToParams_loop] in H.
    destruct (IH _ _ _ _ _ H Hget) as [Hacc | [i [key' [Hk [Hn Hc]]]]].
    + destruct val as [v0 |]; [| now left].
      destruct (String.eqb (Key.name key) name) eqn:Hname.
      * apply String.eqb_eq in Hname. subst name.
        rewrite obj_get_assign_same in Hacc.
        destruct (String.eqb (Key.name key) "__proto__"); [now left |].
        injection Hacc as ->.
        right. exists 0, key. repeat split; reflexivity.
      * apply String.eqb_neq in Hname.
        rewrite (@obj_get_assign_other _ _ _ _ Hname) in Hacc. now left.
    + right. exists (S i), key'. repeat split; assumption.
Qed.

(** X3. Every entry of the params object [keysToParams] returns comes from
    a key and its capture: a name is bound to a value only if some key at
    an index i has that name and the capture at index i + 1 is that value.
    The whole match at index 0 is never a parameter. *)
Theorem X3_keysToParams_entries_come_from_captures :
  forall (whole : option string) (captures : list (option string)) (keys : Keys)
         (params : Params) (name v : string),
    keysToParams (whole :: captures) keys = Normal params ->
    obj_get params name = Some v ->
    exists (i : nat) (key : Key.t),
      nth_error keys i = Some key /\ Key.name key = name
      /\ nth_error captures i = Some (Some v).
Proof.
  intros whole captures keys params name v H Hget.
  unfold keysToParams in H. cbn [tl] in H.
  destruct (@keysToParams_loop_sound _ _ _ _ _ _ H Hget) as [Habs | Hex];
    [discriminate | exact Hex].
Qed.

(** *** matches *)

Lemma yields_gen_app : forall (A : Type) (g k : Generator A) (v : A),
  In v (yields (gen_app g k)) -> In v (yields g) \/ In v (yields k).
Proof.
  induction g as [| v0 rest IH | e]; intros k v H; cbn [gen_app yields] in *.
  - now right.
  - destruct H as [H | H]; [left; now left |].
    destruct (IH _ _ H) as [H' | H']; [left; now right | now right].
  - contradiction.
Qed.

Lemma yields_gen_app_length : forall (A : Type) (g k : Generator A),
  length (yields (gen_app g k)) <= length (yields g) + length (yields k).
Proof.
  induction g as [| v0 rest IH | e]; intros k; cbn [gen_app yields length plus].
  - lia.
  - specialize (IH k). lia.
  - lia.
Qed.

(** What the evaluation of the regular expression adds to the matches
    that follow. *)
Lemma full_evaluation_yields :
  forall (r : route) (path : string) (k : Generator route_match) (m : route_match),
    In m (yields
            match RegExp.exec (Route.regexp r) path with
            | None => k
            | Some matches =>
                if Nat.eqb (length matches) 0 then k
                else
                  match keysToParams matches (Route.keys r) with
                  | Throw e => Raise e
                  | Normal params => Yield (RouteMatch.mk r params (Some matches)) k
                  end
            end) ->
    In m (yields k)
    \/ (RouteMatch.route m = r
        /\ exists whole captures,
             RegExp.exec (Route.regexp r) path = Some (whole :: captures)
             /\ keysToParams (whole :: captures) (Route.keys r)
                = Normal (RouteMatch.params m)
             /\ RouteMatch.matches m = Some (whole :: captures)).
Proof.
  intros r path k m H.
  destruct (RegExp.exec (Route.regexp r) path) as [[| whole captures] |];
    cbn [length Nat.eqb] in H; try (now left).
  destruct (keysToParams (whole :: captures) (Route.keys r)) as [ps | e] eqn:Hps;
    cbn [yields In] in H; [| contradiction].
  destruct H as [<- | H]; [| now left].
  right. split; [reflexivity |]. exists whole, captures.
  cbn [RouteMatch.params RouteMatch.matches]. repeat split; (reflexivity || assumption).
Qed.

(** The three places of the loop body that yield, for one route. *)
Lemma matches_loop_single :
  forall (r : route) (method path : string) (m : route_match),
    In m (yields (Router.matches_loop [r] method path)) ->
    RouteMatch.route m = r
    /\ accepts_method r method = true
    /\ ((Route.path r = "(.*)" /\ RouteMatch.params m = [("0", "(.*)")]
         /\ RouteMatch.matches m = None)
        \/ (Route.path r = "/" /\ RouteOptions.end_ (Route.options r) = Some false
            /\ RouteMatch.params m = [] /\ RouteMatch.matches m = None)
        \/ (exists whole captures,
              RegExp.exec (Route.regexp r) path = Some (whole :: captures)
              /\ keysToParams (whole :: captures) (Route.keys r)
                 = Normal (RouteMatch.params m)
              /\ RouteMatch.matches m = Some (whole :: captures))).
Proof.
  intros r method path m H. cbn [Router.matches_loop] in H.
  assert (Hmethod : accepts_method r method = true).
  { unfold accepts_method.
    destruct (String.eqb (route_method_name (Route.method r)) method);
      destruct (String.eqb (route_method_name (Route.method r)) "ALL");
      cbn [negb andb orb yields In] in *; (reflexivity || contradiction). }
  replace (negb (String.eqb (route_method_name (Route.method r)) method)
           && negb (String.eqb (route_method_name (Route.method r)) "ALL"))
    with false in H
    by (unfold accepts_method in Hmethod; apply orb_true_iff in Hmethod;
        destruct Hmethod as [-> | ->]; cbn [negb andb];
        [reflexivity | now rewrite andb_false_r]).
  assert (Hfull : forall m',
    In m' (yields
             match RegExp.exec (Route.regexp r) path with
             | None => Return
             | Some matches =>
                 if Nat.eqb (length matches) 0 then Return
                 else
                   match keysToParams matches (Route.keys r) with
                   | Throw e => Raise e
                   | Normal params => Yield (RouteMatch.mk r params (Some matches)) Return
                   end
             end) ->
    RouteMatch.route m' = r
    /\ exists whole captures,
         RegExp.exec (Route.regexp r) path = Some (whole :: captures)
         /\ keysToParams (whole :: captures) (Route.keys r)
            = Normal (RouteMatch.params m')
         /\ RouteMatch.matches m' = Some (whole :: captures)).
  { intros m' Hm'. apply full_evaluation_yields in Hm'.
    destruct Hm' as [[] | Hm']. exact Hm'. }
  destruct (String.eqb (Route.path r) "(.*)") eqn:Hall.
  - apply String.eqb_eq in Hall.
    replace (String.eqb (Route.path r) "/") with false in H
      by (now rewrite Hall).
    cbn [andb yields In] in H. destruct H as [<- | H].
    + split; [reflexivity | split; [exact Hmethod |]].
      left. cbn [RouteMatch.params RouteMatch.matches]. rewrite Hall.
      repeat split; reflexivity.
    + destruct (Hfull _ H) as [Hr Hex].
      split; [exact Hr | split; [exact Hmethod |]]. right. right. exact Hex.
  - destruct (String.eqb (Route.path r) "/") eqn:Hroot;
      [apply String.eqb_eq in Hroot |];
      destruct (RouteOptions.end_ (Route.options r)) as [[|] |] eqn:Hend;
      cbn [andb yields In] in H;
      try (destruct (Hfull _ H) as [Hr Hex];
           split; [exact Hr | split; [exact Hmethod |]]; right; right; exact Hex).
    destruct H as [<- | H].
    + split; [reflexivity | split; [exact Hmethod |]].
      right. left. repeat split; (reflexivity || assumption).
    + destruct (Hfull _ H) as [Hr Hex].
      split; [exact Hr | split; [exact Hmethod |]]. right. right. exact Hex.
Qed.

(** X4. [matches] yields nothing but routes of the table that the method
    filter lets through: the route of every match is a registered route
    whose method is the request's or ALL.  The params of the match are the
    template under key 0 (catch-all shortcut), empty (root shortcut), or
    what [keysToParams] makes of the regular expression's result. *)
Theorem X4_matches_yields_only_accepted_table_routes :
  forall (this : router) (method path : string) (m : route_match),
    In m (yields (Router.matches this method path)) ->
    In (RouteMatch.route m) (Router.routes this)
    /\ accepts_method (RouteMatch.route m) method = true
    /\ (RouteMatch.params m = [("0", "(.*)")]
        \/ RouteMatch.params m = []
        \/ exists matches,
             RegExp.exec (Route.regexp (RouteMatch.route m)) path = Some matches
             /\ keysToParams matches (Route.keys (RouteMatch.route m))
                = Normal (RouteMatch.params m)).
Proof.
  intros [rs] method path m. unfold Router.matches. cbn [Router.routes].
  induction rs as [| r rs IH]; intros H.
  - contradiction.
  - rewrite matches_loop_cons in H. apply yields_gen_app in H.
    destruct H as [H | H].
    + apply matches_loop_single in H.
      destruct H as [Hr [Hm Hcases]]. rewrite Hr.
      split; [now left | split; [exact Hm |]].
      destruct Hcases as [[_ [Hp _]] | [[_ [_ [Hp _]]] | [whole [captures [He [Hk _]]]]]].
      * now left.
      * right. now left.
      * right. right. exists (whole :: captures). now split.
    + destruct (IH H) as [Hin Hrest]. split; [now right | exact Hrest].
Qed.

Lemma matches_loop_single_length :
  forall (r : route) (method path : string),
    length (yields (Router.matches_loop [r] method path)) <= 2.
Proof.
  intros r method path. cbn [Router.matches_loop].
  destruct (negb (String.eqb (route_method_name (Route.method r)) method)
            && negb (String.eqb (route_method_name (Route.method r)) "ALL"));
    [cbn; lia |].
  assert (Hfull :
    length (yields
              match RegExp.exec (Route.regexp r) path with
              | Some matches =>
                  if Nat.eqb (length matches) 0 then Return
                  else
                    match keysToParams matches (Route.keys r) with
                    | Normal params =>
                        Yield (RouteMatch.mk r params (Some matches))
                          (@Return route_match)
                    | Throw e => Raise e
                    end
              | None => Return
              end) <= 1).
  { destruct (RegExp.exec (Route.regexp r) path) as [ms |]; [| cbn; lia].
    destruct (Nat.eqb (length ms) 0); [cbn; lia |].
    destruct (keysToParams ms (Route.keys r)); cbn; lia. }
  destruct (String.eqb (Route.path r) "(.*)") eqn:Hall;
    destruct (String.eqb (Route.path r) "/") eqn:Hroot;
    try (apply String.eqb_eq in Hall; rewrite Hall in Hroot; discriminate);
    cbn [andb];
    try destruct (RouteOptions.end_ (Route.options r)) as [[|] |];
    cbn [yields length]; lia.
Qed.

(** X5. One route yields at most twice in a pass (the two shortcuts
    exclude each other), so [matches] yields at most twice as many matches
    as there are routes. *)
Theorem X5_matches_yields_at_most_twice_per_route :
  forall (this : router) (method path : string),
    length (yields (Router.matches this method path))
    <= 2 * length (Router.routes this).
Proof.
  intros [rs] method path. unfold Router.matches. cbn [Router.routes].
  induction rs as [| r rs IH].
  - cbn. lia.
  - rewrite matches_loop_cons.
    pose proof (yields_gen_app_length (Router.matches_loop [r] method path)
                  (Router.matches_loop rs method path)) as Happ.
    pose proof (matches_loop_single_length r method path) as Hone.
    cbn [length]. lia.
Qed.

Lemma matches_loop_applies_not_Return :
  forall (r : route) (rs : list route) (method path : string),
    route_applies method path r = true ->
    Router.matches_loop (r :: rs) method path <> Return.
Proof.
  intros r rs method path H. cbn [Router.matches_loop].
  unfold route_applies, accepts_method, accepts_path, regexp_accepts in H.
  apply andb_true_iff in H. destruct H as [Hm Hp].
  apply orb_true_iff in Hm.
  replace (negb (String.eqb (route_method_name (Route.method r)) method)
           && negb (String.eqb (route_method_name (Route.method r)) "ALL"))
    with false
    by (destruct Hm as [-> | ->]; cbn [negb andb];
        [reflexivity | now rewrite andb_false_r]).
  destruct (String.eqb (Route.path r) "(.*)"); [discriminate |].
  destruct (String.eqb (Route.path r) "/"
            && match RouteOptions.end_ (Route.options r) with
               | Some false => true
               | _ => false
               end); [discriminate |].
  cbn [orb] in Hp.
  destruct (RegExp.exec (Route.regexp r) path) as [[| whole captures] |];
    try discriminate.
  cbn [length Nat.eqb].
  destruct (keysToParams (whole :: captures) (Route.keys r)); discriminate.
Qed.

(** X6. [matches] ends without a yield and without an exception exactly
    when no route of the table applies to the request, that is when every
    route fails the method test or all three path tests. *)
Theorem X6_matches_is_empty_iff_no_route_applies :
  forall (this : router) (method path : string),
    Router.matches this method path = Return
    <-> forallb (fun r => negb (route_applies method path r)) (Router.routes this)
        = true.
Proof.
  intros [rs] method path. unfold Router.matches. cbn [Router.routes].
  split; [| apply matches_loop_none].
  induction rs as [| r rs IH]; intros H.
  - reflexivity.
  - cbn [forallb].
    destruct (route_applies method path r) eqn:Happlies.
    + exfalso. now apply (@matches_loop_applies_not_Return r rs method path Happlies).
    + rewrite matches_loop_skip in H by exact Happlies.
      cbn [negb andb]. now apply IH.
Qed.

(** X7. A route with path "/" registered with [end: false], whose method
    lets the request through, yields the root shortcut (empty params, no
    match array) for every request path; when its regular expression
    accepts the path as well, the same route is yielded a second time with
    the parameters of the regular expression. *)
Theorem X7_root_prefix_route_yields_twice :
  forall (before after : list route) (r : route) (method path : string)
         (whole : option string) (captures : list (option string)) (params : Params),
    Route.path r = "/" ->
    RouteOptions.end_ (Route.options r) = Some false ->
    accepts_method r method = true ->
    RegExp.exec (Route.regexp r) path = Some (whole :: captures) ->
    keysToParams (whole :: captures) (Route.keys r) = Normal params ->
    Router.matches (Router.mk (before ++ r :: after)) method path
    = gen_app (Router.matches (Router.mk before) method path)
        (Yield (RouteMatch.mk r [] None)
           (Yield (RouteMatch.mk r params (Some (whole :: captures)))
              (Router.matches (Router.mk after) method path))).
Proof.
  intros before after r method path whole captures params Hpath Hend Hmethod Hexec Hparams.
  unfold Router.matches. cbn [Router.routes].
  rewrite matches_loop_app. f_equal.
  cbn [Router.matches_loop]. unfold accepts_method in Hmethod.
  apply orb_true_iff in Hmethod.
  replace (negb (String.eqb (route_method_name (Route.method r)) method)
           && negb (String.eqb (route_method_name (Route.method r)) "ALL"))
    with false
    by (destruct Hmethod as [-> | ->]; cbn [negb andb];
        [reflexivity | now rewrite andb_false_r]).
  rewrite Hexec, Hparams, Hpath, Hend.
  reflexivity.
Qed.

(** X8. A route whose path is the catch-all template and whose method lets
    the request through is yielded first with parameter 0 bound to the
    template, for every request path and whatever its regular expression
    does with the path: the shortcut does not consult the matcher. *)
Theorem X8_catch_all_shortcut_ignores_the_matcher :
  forall (before after : list route) (r : route) (method path : string),
    Route.path r = "(.*)" ->
    accepts_method r method = true ->
    forallb (fun r' => negb (route_applies method path r')) before = true ->
    exists rest,
      Router.matches (Router.mk (before ++ r :: after)) method path
      = Yield (RouteMatch.mk r [("0", "(.*)")] None) rest.
Proof.
  intros before after r method path Hpath Hmethod Hbefore.
  unfold Router.matches. cbn [Router.routes].
  rewrite matches_loop_app, (matches_loop_none _ _ _ Hbefore).
  cbn [gen_app Router.matches_loop]. unfold accepts_method in Hmethod.
  apply orb_true_iff in Hmethod.
  replace (negb (String.eqb (route_method_name (Route.method r)) method)
           && negb (String.eqb (route_method_name (Route.method r)) "ALL"))
    with false
    by (destruct Hmethod as [-> | ->]; cbn [negb andb];
        [reflexivity | now rewrite andb_false_r]).
  rewrite Hpath. change (String.eqb "(.*)" "(.*)") with true. cbv iota.
  eexists. reflexivity.
Qed.

(** *** handle *)

(** X9. The first handler that returns a response ends the request: the
    response goes through the callbacks recorded before it, with no error,
    and the matches still to come are never looked at.  For a method other
    than HEAD what [handle] returns is the response the callbacks leave,
    which without callbacks is the handler's own response, body included. *)
Theorem X9_first_response_ends_the_request :
  forall (this : router) (request : Request.t) (env : Env)
         (event : ExecutionContext) (w : World)
         (m : route_match) (rest : Generator route_match)
         (callbacks : list (RouteCallback World)) (ctx : context)
         (w1 w2 : World) (r : Response.t),
    pending (Router.matches this (Request.method request)
               (URL.pathname (Request.url request)), [],
             initial_context request env event, w)
            (Yield m rest, callbacks, ctx, w1) ->
    Route.handler (RouteMatch.route m)
      (Context.set_params ctx (RouteMatch.params m)) w1
    = (Normal (IsResponse r), w2) ->
    Router.handle this request env event w
    = Router.finalize request callbacks r None w2
    /\ (Request.method request <> "HEAD" ->
        Router.handle this request env event w
        = (Normal (fst (fst (Router.run_callbacks callbacks r None w2))),
           snd (Router.run_callbacks callbacks r None w2)))
    /\ (Request.method request <> "HEAD" -> callbacks = [] ->
        Router.handle this request env event w = (Normal r, w2)).
Proof.
  intros this request env event w m rest callbacks ctx w1 w2 r Hpending Hresponse.
  assert (Hhandle : Router.handle this request env event w
                    = Router.finalize request callbacks r None w2).
  { rewrite handle_unfold.
    pose proof (pending_handle_loop request Hpending) as Hloop.
    cbn [fst snd] in Hloop. rewrite Hloop.
    cbn [Router.handle_loop]. now rewrite Hresponse. }
  split; [exact Hhandle | split].
  - intros Hmethod. rewrite Hhandle, finalize_unfold.
    apply String.eqb_neq in Hmethod. now rewrite Hmethod.
  - intros Hmethod ->. rewrite Hhandle, finalize_unfold.
    apply String.eqb_neq in Hmethod. now rewrite Hmethod.
Qed.


(** X11. When no matched handler returns a response or throws, the
    callbacks the middlewares returned are dropped without being run: the
    outcome of the loop, store included, does not depend on the callbacks
    it holds. *)
Theorem X11_callbacks_are_dropped_when_nothing_responds :
  forall (request : Request.t) (g : Generator route_match),
    (forall m, In m (yields g) ->
       forall ctx w, defers (Route.handler (RouteMatch.route m) ctx w)) ->
    forall (callbacks callbacks' : list (RouteCallback World)) (ctx : context)
           (w : World),
      Router.handle_loop request g callbacks ctx w
      = Router.handle_loop request g callbacks' ctx w.
Proof.
  intros request g. induction g as [| m rest IH | e];
    intros Hdefer callbacks callbacks' ctx w.
  - reflexivity.
  - cbn [Router.handle_loop].
    pose proof (Hdefer m (or_introl eq_refl)
                  (Context.set_params ctx (RouteMatch.params m)) w) as Hm.
    cbn [yields] in Hdefer.
    destruct (Route.handler (RouteMatch.route m)
                (Context.set_params ctx (RouteMatch.params m)) w)
      as [[[r | callback |] | err] w']; cbn [defers] in Hm; try contradiction;
      apply IH; intros m' Hin; apply Hdefer; now right.
  - reflexivity.
Qed.

(** X12. An exception of the match generator does leave [handle]: when the
    first route that applies to the request is reached through its regular
    expression and has fewer keys than the expression has capture groups,
    [handle] throws the TypeError of [keysToParams], and no handler has
    run. *)
Theorem X12_missing_key_error_escapes_handle :
  forall (before after : list route) (r : route) (request : Request.t)
         (env : Env) (event : ExecutionContext) (w : World)
         (matches : RegExpExecArray),
    forallb (fun r' => negb (route_applies (Request.method request)
                               (URL.pathname (Request.url request)) r'))
      before = true ->
    accepts_method r (Request.method request) = true ->
    Route.path r <> "(.*)" ->
    Route.path r <> "/" ->
    RegExp.exec (Route.regexp r) (URL.pathname (Request.url request)) = Some matches ->
    length (Route.keys r) < length matches - 1 ->
    Router.handle (Router.mk (before ++ r :: after)) request env event w
    = (Throw (TypeError_undefined "name"), w).
Proof.
  intros before after r request env event w matches
         Hbefore Hmethod Hall Hroot Hexec Hlen.
  rewrite handle_unfold. unfold Router.matches. cbn [Router.routes].
  rewrite matches_loop_app, (matches_loop_none _ _ _ Hbefore).
  cbn [gen_app Router.matches_loop]. unfold accepts_method in Hmethod.
  apply orb_true_iff in Hmethod.
  replace (negb (String.eqb (route_method_name (Route.method r))
                   (Request.method request))
           && negb (String.eqb (route_method_name (Route.method r)) "ALL"))
    with false
    by (destruct Hmethod as [-> | ->]; cbn [negb andb];
        [reflexivity | now rewrite andb_false_r]).
  apply String.eqb_neq in Hall. apply String.eqb_neq in Hroot.
  rewrite Hall, Hroot, Hexec. cbn [andb].
  replace (Nat.eqb (length matches) 0) with false
    by (symmetry; apply Nat.eqb_neq; lia).
  unfold keysToParams. rewrite keysToParams_loop_throws.
  - reflexivity.
  - destruct matches; cbn [tl length] in *; lia.
Qed.

(** X13. Callbacks that return normally do not touch the error: each of
    them is passed the error the handler threw (or none), and that error is
    still the current one after they have all run. *)
Theorem X13_callbacks_that_return_keep_the_error :
  forall (callbacks : list (RouteCallback World)) (r : Response.t)
         (e : option Error.t) (w : World),
    (forall callback, In callback callbacks ->
       forall r' e' w', exists r'' w'', callback r' e' w' = (Normal r'', w'')) ->
    snd (fst (Router.run_callbacks callbacks r e w)) = e.
Proof.
  induction callbacks as [| callback callbacks IH]; intros r e w Hall.
  - reflexivity.
  - cbn [Router.run_callbacks].
    destruct (Hall callback (or_introl eq_refl) r e w) as [r'' [w'' Hreturn]].
    rewrite Hreturn. apply IH. intros c Hin. apply Hall. now right.
Qed.

(** X14. A middleware registered for the catch-all template runs twice for
    one request, once on the shortcut match and once on the match of the
    regular expression, and each callback it returns is recorded: the
    response of the handler that follows goes through both callbacks, in
    that order. *)
Theorem X14_catch_all_middleware_runs_twice :
  forall (wild a : route) (request : Request.t) (env : Env)
         (event : ExecutionContext) (w w1 w2 w3 : World)
         (cb1 cb2 : RouteCallback World) (ra : Response.t) (whole : string)
         (matches : RegExpExecArray) (params : Params),
    let pathname := URL.pathname (Request.url request) in
    let ctx := initial_context request env event in
    Route.path wild = "(.*)" ->
    accepts_method wild (Request.method request) = true ->
    RegExp.exec (Route.regexp wild) pathname = Some [Some whole; Some pathname] ->
    map Key.name (Route.keys wild) = ["0"] ->
    accepts_method a (Request.method request) = true ->
    Route.path a <> "(.*)" ->
    Route.path a <> "/" ->
    RegExp.exec (Route.regexp a) pathname = Some matches ->
    matches <> [] ->
    keysToParams matches (Route.keys a) = Normal params ->
    Route.handler wild (Context.set_params ctx [("0", "(.*)")]) w
    = (Normal (IsCallback cb1), w1) ->
    Route.handler wild (Context.set_params ctx [("0", pathname)]) w1
    = (Normal (IsCallback cb2), w2) ->
    Route.handler a (Context.set_params ctx params) w2
    = (Normal (IsResponse ra), w3) ->
    Router.handle (Router.mk [wild; a]) request env event w
    = Router.finalize request [cb1; cb2] ra None w3.
Proof.
  intros wild a request env event w w1 w2 w3 cb1 cb2 ra whole matches params
         pathname ctx Hwild Hwm Hwexec Hwkeys Ham Haall Haroot Haexec Hne Haparams
         H1 H2 H3.
  rewrite handle_unfold. fold pathname. fold ctx.
  unfold Router.matches. cbn [Router.routes Router.matches_loop].
  unfold accepts_method in Hwm, Ham.
  apply orb_true_iff in Hwm. apply orb_true_iff in Ham.
  replace (negb (String.eqb (route_method_name (Route.method wild))
                   (Request.method request))
           && negb (String.eqb (route_method_name (Route.method wild)) "ALL"))
    with false
    by (destruct Hwm as [-> | ->]; cbn [negb andb];
        [reflexivity | now rewrite andb_false_r]).
  replace (negb (String.eqb (route_method_name (Route.method a))
                   (Request.method request))
           && negb (String.eqb (route_method_name (Route.method a)) "ALL"))
    with false
    by (destruct Ham as [-> | ->]; cbn [negb andb];
        [reflexivity | now rewrite andb_false_r]).
  apply String.eqb_neq in Haall. apply String.eqb_neq in Haroot.
  rewrite Hwexec, Haexec, Haall, Haroot, Haparams, Hwild.
  change (String.eqb "(.*)" "(.*)") with true.
  change (String.eqb "(.*)" "/") with false.
  cbn [andb length Nat.eqb].
  replace (Nat.eqb (length matches) 0) with false
    by (destruct matches; [contradiction | reflexivity]).
  destruct (Route.keys wild) as [| k [| k' ks]]; cbn [map] in Hwkeys; try discriminate.
  injection Hwkeys as Hk. unfold keysToParams. cbn [tl keysToParams_loop].
  rewrite Hk. change (obj_assign [] "0" pathname) with [("0", pathname)].
  cbn [Router.handle_loop RouteMatch.route RouteMatch.params Context.set_params
       Context.request Context.query Context.headers Context.env Context.event].
  unfold Context.set_params, ctx, initial_context in H1, H2, H3.
  cbn [Context.request Context.query Context.headers Context.env Context.event]
    in H1, H2, H3.
  unfold ctx, initial_context, Context.set_params.
  cbn [Context.request Context.query Context.headers Context.env Context.event].
  rewrite H1, H2, H3. reflexivity.
Qed.

(** *** Chains of registration calls *)

Section WithCompiler.

Variable pathToRegexp : string -> RouteOptions.t -> Completion (RegExp.t * Keys).

(** A registration call throws and leaves the router alone, or returns the
    router with its routes appended. *)
Lemma perform_outcome :
  forall (call : registration) (h : handler) (options : RouteOptions.t) (this : router),
    (exists e,
       pathToRegexp (registered_template call) options = Throw e
       /\ perform pathToRegexp call h options this = (Throw e, this))
    \/ (exists added,
          perform pathToRegexp call h options this
          = (Normal (Router.mk (Router.routes this ++ added)),
             Router.mk (Router.routes this ++ added))
          /\ length added = length (registered_methods call)).
Proof.
  intros call h options this.
  destruct (pathToRegexp (registered_template call) options)
    as [[regexp keys] | e] eqn:Hcompile.
  - right.
    exists (map (fun method =>
                   Route.mk method (registered_template call) regexp options keys h)
              (registered_methods call)).
    split; [| apply length_map].
    destruct call; cbn [perform registered_template registered_methods map] in *;
      unfold Router.all, Router.post, Router.put, Router.patch, Router.delete,
        Router.head, Router.options, Router.use;
      first [now apply push_ok | now apply get_ok].
  - left. exists e. split; [reflexivity |].
    destruct call; cbn [perform registered_template] in *;
      unfold Router.all, Router.get, Router.post, Router.put, Router.patch,
        Router.delete, Router.head, Router.options, Router.use, Router.chain;
      first [now apply push_throws
            | now rewrite (push_throws _ _ _ _ _ _ Hcompile)].
Qed.

Lemma perform_all_snoc :
  forall (calls : list (registration * handler * RouteOptions.t))
         (call : registration) (h : handler) (options : RouteOptions.t) (this : router),
    perform_all pathToRegexp (calls ++ [(call, h, options)]) this
    = Router.chain (perform_all pathToRegexp calls)
        (perform pathToRegexp call h options) this.
Proof.
  intros calls call h options this. unfold perform_all.
  now rewrite fold_left_app.
Qed.

(** What a chain leaves: the routes it started from, then those of the
    calls that succeeded; when it returns, it returns the router in that
    state, with the routes of all the calls. *)
Lemma perform_all_outcome :
  forall (calls : list (registration * handler * RouteOptions.t)) (this : router),
    exists added,
      Router.routes (snd (perform_all pathToRegexp calls this))
      = Router.routes this ++ added
      /\ length added <= registered_count calls
      /\ (forall returned,
            fst (perform_all pathToRegexp calls this) = Normal returned ->
            returned = snd (perform_all pathToRegexp calls this)
            /\ length added = registered_count calls).
Proof.
  intros calls this. induction calls as [| [[call h] options] calls IH] using rev_ind.
  - exists []. cbn. rewrite app_nil_r. repeat split; try lia.
    now injection H as <-.
  - destruct IH as [added [Hroutes [Hle Hret]]].
    rewrite perform_all_snoc. unfold Router.chain.
    assert (Hcount : registered_count (calls ++ [(call, h, options)])
                     = registered_count calls + length (registered_methods call)).
    { unfold registered_count. rewrite map_app, list_sum_app. cbn. lia. }
    destruct (perform_all pathToRegexp calls this) as [[mid | e] state] eqn:Hcalls;
      cbn [fst snd] in *.
    + destruct (Hret mid eq_refl) as [-> Hlen].
      destruct (perform_outcome call h options state)
        as [[e [_ ->]] | [added' [-> Hadded']]]; cbn [fst snd Router.routes].
      * exists added. split; [exact Hroutes | split; [lia |]]. discriminate.
      * exists (added ++ added'). rewrite Hroutes, app_assoc.
        split; [reflexivity |]. rewrite length_app.
        split; [lia |]. intros returned Hreturned.
        injection Hreturned as <-. split; [reflexivity | lia].
    + exists added. split; [exact Hroutes | split; [lia |]]. discriminate.
Qed.

(** X15. The route table only grows, at its end: after any chain of
    registration calls, whether it returned or threw, the routes that were
    in the table are still there, in their place, in front of the new
    ones. *)
Theorem X15_registration_only_appends :
  forall (calls : list (registration * handler * RouteOptions.t)) (this : router),
    exists added,
      Router.routes (snd (perform_all pathToRegexp calls this))
      = Router.routes this ++ added
      /\ length added <= registered_count calls.
Proof.
  intros calls this.
  destruct (perform_all_outcome calls this) as [added [Hroutes [Hle _]]].
  exists added. now split.
Qed.

(** X16. A chain of registration calls that returns has returned the
    router itself, and the table has grown by one route for each call, two
    for each [get]. *)
Theorem X16_successful_chain_registers_every_call :
  forall (calls : list (registration * handler * RouteOptions.t))
         (this returned : router),
    fst (perform_all pathToRegexp calls this) = Normal returned ->
    returned = snd (perform_all pathToRegexp calls this)
    /\ length (Router.routes returned)
       = length (Router.routes this) + registered_count calls.
Proof.
  intros calls this returned Hreturned.
  destruct (perform_all_outcome calls this) as [added [Hroutes [_ Hret]]].
  destruct (Hret returned Hreturned) as [-> Hlen].
  split; [reflexivity |]. rewrite Hroutes, length_app. lia.
Qed.

(** X17. A call whose template does not compile stops the chain: the
    exception is the chain's, the calls before it stay registered, and no
    call after it is made. *)
Theorem X17_failed_call_stops_the_chain :
  forall (before after : list (registration * handler * RouteOptions.t))
         (call : registration) (h : handler) (options : RouteOptions.t)
         (this mid : router) (e : Error.t),
    fst (perform_all pathToRegexp before this) = Normal mid ->
    pathToRegexp (registered_template call) options = Throw e ->
    perform_all pathToRegexp (before ++ (call, h, options) :: after) this
    = (Throw e, mid).
Proof.
  intros before after call h options this mid e Hbefore Hcompile.
  induction after as [| [[call' h'] options'] after IH] using rev_ind.
  - rewrite perform_all_snoc. unfold Router.chain.
    destruct (perform_all pathToRegexp before this) as [[mid' | e'] state];
      cbn [fst] in Hbefore; [| discriminate].
    injection Hbefore as ->.
    destruct (perform_outcome call h options mid)
      as [[e' [He' ->]] | [added [Hok _]]].
    + congruence.
    + exfalso.
      destruct call; cbn [perform registered_template] in *;
        unfold Router.all, Router.get, Router.post, Router.put, Router.patch,
          Router.delete, Router.head, Router.options, Router.use, Router.chain in Hok;
        try (rewrite (push_throws _ _ _ _ _ _ Hcompile) in Hok; discriminate).
      unfold Router.push in Hok. cbn in Hok, Hcompile.
      rewrite Hcompile in Hok. discriminate.
  - rewrite app_comm_cons, app_assoc, perform_all_snoc. unfold Router.chain.
    now rewrite IH.
Qed.

End WithCompiler.

(** *** allowedMethods, continued *)

Lemma existsb_eqb_In : forall (k : string) (l : list string),
  existsb (String.eqb k) l = true <-> In k l.
Proof.
  intros k l. rewrite existsb_exists. split.
  - intros [x [Hin Heq]]. apply String.eqb_eq in Heq. now subst.
  - intros Hin. exists k. split; [exact Hin | apply String.eqb_refl].
Qed.

Lemma add_key_In : forall (seen : list string) (k x : string),
  In x (add_key seen k) <-> In x seen \/ x = k.
Proof.
  intros seen k x. unfold add_key.
  destruct (existsb (String.eqb k) seen) eqn:Hseen.
  - apply existsb_eqb_In in Hseen. split; [now left |].
    intros [H | ->]; assumption.
  - rewrite in_app_iff. cbn [In]. split.
    + intros [H | [H | []]]; [now left | now right].
    + intros [H | ->]; [now left | right; now left].
Qed.

Lemma add_key_NoDup : forall (seen : list string) (k : string),
  NoDup seen -> NoDup (add_key seen k).
Proof.
  intros seen k Hnodup. unfold add_key.
  destruct (existsb (String.eqb k) seen) eqn:Hseen; [exact Hnodup |].
  assert (Hnotin : ~ In k seen).
  { intros Hin. apply existsb_eqb_In in Hin. congruence. }
  clear Hseen. induction Hnodup as [| x seen Hx Hnodup IH]; cbn [app].
  - constructor; [intros [] | constructor].
  - constructor.
    + rewrite in_app_iff. cbn [In]. intros [H | [H | []]]; [contradiction |].
      apply Hnotin. now left.
    + apply IH. intros Hin. apply Hnotin. now right.
Qed.

Lemma fold_add_key :
  forall (l seen : list string),
    NoDup seen ->
    NoDup (fold_left add_key l seen)
    /\ (forall x, In x (fold_left add_key l seen) <-> In x seen \/ In x l)
    /\ exists tail, fold_left add_key l seen = seen ++ tail.
Proof.
  induction l as [| k l IH]; intros seen Hnodup; cbn [fold_left].
  - split; [exact Hnodup | split].
    + intros x. cbn [In]. tauto.
    + exists []. now rewrite app_nil_r.
  - destruct (IH (add_key seen k) (add_key_NoDup k Hnodup)) as [Hn [Hin [tail Htail]]].
    split; [exact Hn | split].
    + intros x. rewrite Hin, add_key_In. cbn [In]. intuition congruence.
    + rewrite Htail. unfold add_key.
      destruct (existsb (String.eqb k) seen).
      * now exists tail.
      * exists ([k] ++ tail). now rewrite app_assoc.
Qed.

(** X18. The handler of [allowedMethods] never throws and leaves the store
    alone.  Its [allow] header joins a list of names that starts with
    OPTIONS, holds no name twice, and holds a name exactly when the name is
    OPTIONS or the method of a route with a concrete method whose regular
    expression accepts the request path. *)
Theorem X18_allowed_methods_lists_each_accepting_method_once :
  forall (this : router) (ctx : context) (w : World),
    exists names,
      Router.allowedMethods this ctx w
      = (Normal (IsResponse
           (Response.mk 204 "" [("allow", join ", " ("OPTIONS" :: names))] None)), w)
      /\ NoDup ("OPTIONS" :: names)
      /\ forall name,
           In name ("OPTIONS" :: names)
           <-> name = "OPTIONS"
               \/ exists (r : route) (m : Method),
                    In r (Router.routes this)
                    /\ Route.method r = Exactly m
                    /\ method_name m = name
                    /\ regexp_accepts r
                         (URL.pathname (Request.url (Context.request ctx))) = true.
Proof.
  intros this ctx w.
  set (pathname := URL.pathname (Request.url (Context.request ctx))).
  assert (Hstart : NoDup ["OPTIONS"]) by (constructor; [intros [] | constructor]).
  destruct (fold_add_key (scanned_methods (Router.routes this) pathname) Hstart)
    as [Hnodup [Hin [names Hnames]]].
  exists names. cbn [app] in Hnames. rewrite <- Hnames.
  split; [| split; [exact Hnodup |]].
  - unfold Router.allowedMethods. fold pathname. now rewrite allow_keys.
  - intros name. rewrite Hin. cbn [In]. unfold scanned_methods.
    rewrite in_map_iff. split.
    + intros [[H | []] | [r [Hname Hr]]]; [now left |].
      apply filter_In in Hr. destruct Hr as [Hr Haccepts].
      destruct (Route.method r) as [m |] eqn:Hm; [| discriminate].
      right. exists r, m. repeat split; assumption.
    + intros [-> | [r [m [Hr [Hm [Hname Haccepts]]]]]]; [left; now left |].
      right. exists r. split; [now rewrite Hm |].
      apply filter_In. split; [exact Hr | now rewrite Hm].
Qed.

Lemma allow_without_wildcards :
  forall (rs : list route) (pathname : string) (allow : JsObject bool),
    fold_left (Router.allow_route pathname) rs allow
    = fold_left (Router.allow_route pathname)
        (filter (fun r => match Route.method r with ALL => false | Exactly _ => true end)
           rs)
        allow.
Proof.
  induction rs as [| r rs IH]; intros pathname allow.
  - reflexivity.
  - cbn [fold_left filter].
    destruct (Route.method r) as [m |] eqn:Hm.
    + cbn [fold_left]. apply IH.
    + unfold Router.allow_route at 2. rewrite Hm. apply IH.
Qed.

(** X19. What [allowedMethods] answers depends on the request path only:
    not on the request method, the params or the store, and not on the
    routes registered for ALL, which can be dropped from the table without
    changing the answer. *)
Theorem X19_allowed_methods_ignores_wildcard_routes :
  forall (this : router) (ctx ctx' : context) (w w' : World),
    URL.pathname (Request.url (Context.request ctx))
    = URL.pathname (Request.url (Context.request ctx')) ->
    fst (Router.allowedMethods this ctx w)
    = fst (Router.allowedMethods
             (Router.mk
                (filter (fun r => match Route.method r with
                                  | ALL => false
                                  | Exactly _ => true
                                  end)
                   (Router.routes this)))
             ctx' w')
    /\ snd (Router.allowedMethods this ctx w) = w.
Proof.
  intros this ctx ctx' w w' Hpath. split; [| reflexivity].
  unfold Router.allowedMethods. cbn [fst Router.routes].
  now rewrite Hpath, allow_without_wildcards.
Qed.

End FurtherProperties.

(* ------------------------------------------------------------------ *)
(** ** The further properties at concrete routers *)

Import Scenario.

Lemma X2_keysToParams_binds_each_key_to_its_capture_witness :
  keysToParams [Some "/users/42/x/posts"; Some "42"; Some "x"; None]
    [key "id"; key "__proto__"; key "post"]
  = Normal [("id", "42")]
  /\ obj_get [("id", "42")] "id" = Some "42"
  /\ obj_get [("id", "42")] "__proto__" = None
  /\ obj_get [("id", "42")] "post" = None.
Proof.
  assert (Hnodup : NoDup (map Key.name [key "id"; key "__proto__"; key "post"])).
  { constructor; [intros [H | [H | []]]; discriminate H |].
    constructor; [intros [H | []]; discriminate H |].
    constructor; [intros [] | constructor]. }
  pose proof (@X2_keysToParams_binds_each_key_to_its_capture
                (Some "/users/42/x/posts") [Some "42"; Some "x"; None]
                [key "id"; key "__proto__"; key "post"]
                [("id", "42")] Hnodup eq_refl) as H.
  split; [reflexivity | split; [| split]].
  - exact (H 0 (key "id") eq_refl).
  - exact (H 1 (key "__proto__") eq_refl).
  - exact (H 2 (key "post") eq_refl).
Defined.

Lemma X3_keysToParams_entries_come_from_captures_witness :
  exists (i : nat) (k : Key.t),
    nth_error [key "id"; key "id"] i = Some k /\ Key.name k = "id"
    /\ nth_error [Some "42"; Some "7"] i = Some (Some "7").
Proof.
  exact (@X3_keysToParams_entries_come_from_captures
           (Some "/42/7") [Some "42"; Some "7"] [key "id"; key "id"]
           [("id", "7")] "id" "7" eq_refl eq_refl).
Defined.

Lemma X4_matches_yields_only_accepted_table_routes_witness :
  let this := built (Router.chain (Router.post pathToRegexp "/a" (respond "p" (ok "posted")) E)
                       (Router.get pathToRegexp "/a" (respond "g" (ok "got")) E)) in
  let m := RouteMatch.mk
             (Route.mk (Exactly GET) "/a" (literal false "/a") E [] (respond "g" (ok "got")))
             [] (Some [Some "/A/"]) in
  yields (Router.matches this "GET" "/A/") = [m]
  /\ In (RouteMatch.route m) (Router.routes this)
  /\ accepts_method (RouteMatch.route m) "GET" = true.
Proof.
  cbv zeta. split; [reflexivity |].
  refine ((fun H => conj (proj1 H) (proj1 (proj2 H)))
            (@X4_matches_yields_only_accepted_table_routes World unit unit
               (built (Router.chain
                         (Router.post pathToRegexp "/a" (respond "p" (ok "posted")) E)
                         (Router.get pathToRegexp "/a" (respond "g" (ok "got")) E)))
               "GET" "/A/" _ (or_introl eq_refl))).
Defined.

Lemma X7_root_prefix_route_yields_twice_witness :
  Router.matches (Router.mk [root_route echo_param]) "GET" "/users/42"
  = Yield (RouteMatch.mk (root_route echo_param) [] None)
      (Yield (RouteMatch.mk (root_route echo_param) [] (Some [Some "/"])) Return).
Proof.
  exact (@X7_root_prefix_route_yields_twice World unit unit [] []
           (root_route echo_param) "GET" "/users/42" (Some "/") [] []
           eq_refl eq_refl eq_refl eq_refl eq_refl).
Defined.

Lemma X8_catch_all_shortcut_ignores_the_matcher_witness :
  RegExp.exec catch_all (String "/" (String (ascii_of_nat 10) "b")) = None
  /\ exists rest,
       Router.matches (Router.mk [wildcard echo_param]) "GET"
         (String "/" (String (ascii_of_nat 10) "b"))
       = Yield (RouteMatch.mk (wildcard echo_param) [("0", "(.*)")] None) rest.
Proof.
  split; [reflexivity |].
  exact (@X8_catch_all_shortcut_ignores_the_matcher World unit unit [] []
           (wildcard echo_param) "GET" (String "/" (String (ascii_of_nat 10) "b"))
           eq_refl eq_refl eq_refl).
Defined.

Lemma X9_first_response_ends_the_request_witness :
  Router.handle
    (built (Router.chain
              (Router.chain
                 (Router.post pathToRegexp "/a" (middleware "m" (tagging "t")) E)
                 (Router.post pathToRegexp "/a" (respond "a" (ok "hello")) E))
              (Router.post pathToRegexp "/a" (respond "b" (ok "late")) E)))
    (request "POST" "/a") tt tt []
  = (Normal (Response.mk 200 "OK" [("content-type", "text/plain"); ("t", "seen")]
               (Some "hello")),
     ["m"; "a"; "t"]).
Proof.
  refine (eq_trans
    (proj1 (@X9_first_response_ends_the_request World unit unit
      (built (Router.chain
                (Router.chain
                   (Router.post pathToRegexp "/a" (middleware "m" (tagging "t")) E)
                   (Router.post pathToRegexp "/a" (respond "a" (ok "hello")) E))
                (Router.post pathToRegexp "/a" (respond "b" (ok "late")) E)))
      (request "POST" "/a") tt tt []
      (RouteMatch.mk
         (Route.mk (Exactly POST) "/a" (literal false "/a") E [] (respond "a" (ok "hello")))
         [] (Some [Some "/a"]))
      (Yield (RouteMatch.mk
                (Route.mk (Exactly POST) "/a" (literal false "/a") E []
                   (respond "b" (ok "late")))
                [] (Some [Some "/a"])) Return)
      [tagging "t"]
      (initial_context (request "POST" "/a") tt tt)
      ["m"] ["m"; "a"] (ok "hello") _ eq_refl)) _).
  - eapply pending_callback; [reflexivity |]. apply pending_here.
  - reflexivity.
Defined.

Lemma X11_callbacks_are_dropped_when_nothing_responds_witness :
  Router.handle_loop (request "GET" "/a")
    (Router.matches (built (Router.use pathToRegexp (middleware "m" (tagging "t")) E))
       "GET" "/a")
    [failing_callback "never"] (initial_context (request "GET" "/a") tt tt) []
  = (Normal (Response.mk 404 "" [("content-type", "text/plain;charset=UTF-8")]
               (Some "Not Found")), ["m"; "m"]).
Proof.
  refine (eq_trans
    (@X11_callbacks_are_dropped_when_nothing_responds World unit unit
       (request "GET" "/a")
       (Router.matches (built (Router.use pathToRegexp (middleware "m" (tagging "t")) E))
          "GET" "/a")
       _ [failing_callback "never"] [] (initial_context (request "GET" "/a") tt tt) [])
    _).
  - intros m Hin ctx w. simpl in Hin.
    destruct Hin as [<- | [<- | []]]; exact I.
  - reflexivity.
Defined.

Lemma X12_missing_key_error_escapes_handle_witness :
  Router.handle (Router.mk [keyless_route (respond "u" (ok "user"))])
    (request "GET" "/users/42") tt tt []
  = (Throw (Error.mk "TypeError"
              "Cannot read properties of undefined (reading 'name')"), []).
Proof.
  refine (@X12_missing_key_error_escapes_handle World unit unit [] []
            (keyless_route (respond "u" (ok "user"))) (request "GET" "/users/42")
            tt tt [] [Some "/users/42"; Some "42"] eq_refl eq_refl _ _ eq_refl _).
  - discriminate.
  - discriminate.
  - cbn. lia.
Defined.

Lemma X13_callbacks_that_return_keep_the_error_witness :
  snd (fst (Router.run_callbacks [tagging "a"; tagging "b"] (ok "hello")
              (Some (Error.mk "Error" "h")) []))
  = Some (Error.mk "Error" "h").
Proof.
  apply (@X13_callbacks_that_return_keep_the_error World).
  intros callback Hin r' e' w'. simpl in Hin.
  destruct Hin as [<- | [<- | []]]; eexists; eexists; reflexivity.
Defined.

Lemma X14_catch_all_middleware_runs_twice_witness :
  Router.handle
    (built (Router.chain (Router.use pathToRegexp (middleware "m" (tagging "t")) E)
              (Router.post pathToRegexp "/a" (respond "a" (ok "hello")) E)))
    (request "POST" "/a") tt tt []
  = (Normal (Response.mk 200 "OK" [("content-type", "text/plain"); ("t", "seen")]
               (Some "hello")),
     ["m"; "m"; "a"; "t"; "t"]).
Proof.
  refine (eq_trans
    (@X14_catch_all_middleware_runs_twice World unit unit
       (wildcard (middleware "m" (tagging "t")))
       (Route.mk (Exactly POST) "/a" (literal false "/a") E [] (respond "a" (ok "hello")))
       (request "POST" "/a") tt tt [] ["m"] ["m"; "m"] ["m"; "m"; "a"]
       (tagging "t") (tagging "t") (ok "hello") "/a" [Some "/a"] []
       eq_refl eq_refl eq_refl eq_refl eq_refl _ _ eq_refl _ eq_refl
       eq_refl eq_refl eq_refl)
    _); try discriminate.
  reflexivity.
Defined.

Lemma X16_successful_chain_registers_every_call_witness :
  length (Router.routes
            (snd (perform_all pathToRegexp
                    [(call_get "/a", respond "g" (ok "got"), E);
                     (call_use, middleware "m" (tagging "t"), E);
                     (call_delete "/a", respond "d" (ok "gone"), E)]
                    (Router.new (World := World) (Env := unit)
                       (ExecutionContext := unit)))))
  = 4.
Proof.
  pose (calls := [(call_get "/a", respond "g" (ok "got"), E);
                  (call_use, middleware "m" (tagging "t"), E);
                  (call_delete "/a", respond "d" (ok "gone"), E)]).
  pose (this := Router.new (World := World) (Env := unit) (ExecutionContext := unit)).
  destruct (@X16_successful_chain_registers_every_call World unit unit pathToRegexp
              calls this (snd (perform_all pathToRegexp calls this)) eq_refl)
    as [_ H].
  exact H.
Defined.

Lemma X17_failed_call_stops_the_chain_witness :
  perform_all pathToRegexp
    [(call_get "/a", respond "g" (ok "got"), E);
     (call_post "/(", respond "p" (ok "posted"), E);
     (call_use, middleware "m" (tagging "t"), E)]
    Router.new
  = (Throw (Error.mk "TypeError" "Unexpected pattern in /("),
     built (Router.get pathToRegexp "/a" (respond "g" (ok "got")) E)).
Proof.
  exact (@X17_failed_call_stops_the_chain World unit unit pathToRegexp
           [(call_get "/a", respond "g" (ok "got"), E)]
           [(call_use, middleware "m" (tagging "t"), E)]
           (call_post "/(") (respond "p" (ok "posted")) E Router.new
           (built (Router.get pathToRegexp "/a" (respond "g" (ok "got")) E))
           (Error.mk "TypeError" "Unexpected pattern in /(") eq_refl eq_refl).
Defined.

Lemma X19_allowed_methods_ignores_wildcard_routes_witness :
  let this := built (Router.chain (Router.use pathToRegexp (middleware "m" (tagging "t")) E)
                       (Router.put pathToRegexp "/a" (respond "p" (ok "put")) E)) in
  fst (Router.allowedMethods this (initial_context (request "OPTIONS" "/a") tt tt) [])
  = Normal (IsResponse (Response.mk 204 "" [("allow", "OPTIONS, PUT")] None)).
Proof.
  cbv zeta.
  refine (eq_trans
    (proj1 (@X19_allowed_methods_ignores_wildcard_routes World unit unit
              (built (Router.chain
                        (Router.use pathToRegexp (middleware "m" (tagging "t")) E)
                        (Router.put pathToRegexp "/a" (respond "p" (ok "put")) E)))
              (initial_context (request "OPTIONS" "/a") tt tt)
              (initial_context (request "GET" "/a") tt tt) [] ["x"] eq_refl))
    _).
  reflexivity.
Defined.
